(** * OpenRide: search, booking, payment and seat-token logic

    A shallow embedding of the rider-side logic of the OpenRide front end
    (rider dashboard, booking modal, checkout page, Interswitch modal,
    booking confirmation) and of the [BookingVerification] contract given in
    the blockchain guide, with the properties established about them.

    Conventions of the embedding:
    - a JavaScript string is a [string] of ASCII characters (the location
      names, clock strings and identifiers of the application are ASCII);
    - a JavaScript number holding an integer is a [Z]; a number that may be
      [NaN] or [undefined] is an [option Z], and every comparison with
      [None] is false, as in JavaScript;
    - [Date.now()] and [Math.random().toString(36)] are inputs of the
      functions that call them;
    - React state is a record, and a handler is a function from the state
      before the event to the state after it. *)

From Stdlib Require Import ZArith List String Ascii Bool Lia QArith.
From Stdlib Require Import Permutation Sorted DecimalString DecimalZ.
Import ListNotations.

Local Open Scope string_scope.
Local Open Scope Z_scope.

(** ** JavaScript string primitives *)

Module JS.

Definition code (c : ascii) : N := N_of_ascii c.

Definition isUpper (c : ascii) : bool := (65 <=? code c)%N && (code c <=? 90)%N.
Definition isLower (c : ascii) : bool := (97 <=? code c)%N && (code c <=? 122)%N.

Definition lowerChar (c : ascii) : ascii :=
  if isUpper c then ascii_of_N (code c + 32) else c.

Definition upperChar (c : ascii) : ascii :=
  if isLower c then ascii_of_N (code c - 32) else c.

Fixpoint mapChars (f : ascii -> ascii) (s : string) : string :=
  match s with
  | EmptyString => EmptyString
  | String c s' => String (f c) (mapChars f s')
  end.

(** [s.toLowerCase()] and [s.toUpperCase()] *)
Definition toLowerCase : string -> string := mapChars lowerChar.
Definition toUpperCase : string -> string := mapChars upperChar.

(** [s.includes(t)] *)
Fixpoint includes (s t : string) : bool :=
  String.prefix t s ||
  match s with
  | EmptyString => false
  | String _ s' => includes s' t
  end.

(** [s.split(sep)] for a one-character separator; the result is never
    empty. *)
Fixpoint split (sep : ascii) (s : string) : list string :=
  match s with
  | EmptyString => [EmptyString]
  | String c s' =>
      if Ascii.eqb c sep then EmptyString :: split sep s'
      else match split sep s' with
           | [] => [String c EmptyString]
           | h :: t => String c h :: t
           end
  end.

(** [s.substr(start, len)] for non-negative arguments *)
Definition substr (start len : nat) (s : string) : string :=
  String.substring start len s.

(** White space skipped by [parseInt] *)
Definition isWhiteSpace (c : ascii) : bool :=
  let n := code c in
  ((9 <=? n)%N && (n <=? 13)%N) || (n =? 32)%N.

Fixpoint trimStart (s : string) : string :=
  match s with
  | String c s' => if isWhiteSpace c then trimStart s' else s
  | EmptyString => EmptyString
  end.

Definition digitValue (radix : Z) (c : ascii) : option Z :=
  let n := Z.of_N (code c) in
  let v :=
    if (48 <=? n) && (n <=? 57) then Some (n - 48)
    else if (97 <=? n) && (n <=? 122) then Some (n - 87)
    else if (65 <=? n) && (n <=? 90) then Some (n - 55)
    else None in
  match v with
  | Some d => if d <? radix then Some d else None
  | None => None
  end.

(** The value of the longest prefix of digits; [acc] is [None] until a
    digit has been read. *)
Fixpoint digits (radix : Z) (s : string) (acc : option Z) : option Z :=
  match s with
  | EmptyString => acc
  | String c s' =>
      match digitValue radix c with
      | Some d =>
          digits radix s' (Some (radix * match acc with Some a => a | None => 0 end + d))
      | None => acc
      end
  end.

Definition stripSign (s : string) : Z * string :=
  match s with
  | String "-" s' => (-1, s')
  | String "+" s' => (1, s')
  | _ => (1, s)
  end.

Definition stripHex (s : string) : Z * string :=
  match s with
  | String "0" (String "x" s') => (16, s')
  | String "0" (String "X" s') => (16, s')
  | _ => (10, s)
  end.

(** [Number.parseInt(s)], with [None] for [NaN] *)
Definition parseInt (s : string) : option Z :=
  let '(sign, s1) := stripSign (trimStart s) in
  let '(radix, s2) := stripHex s1 in
  option_map (Z.mul sign) (digits radix s2 None).

(** [parseInt(a[i])]: a missing element is [undefined], which parses to
    [NaN]. *)
Definition parseIntAt (a : list string) (i : nat) : option Z :=
  match nth_error a i with
  | Some s => parseInt s
  | None => None
  end.

(** [x >= y] and [x <= y] on numbers that may be [NaN] or [undefined] *)
Definition ge (x y : option Z) : bool :=
  match x, y with
  | Some a, Some b => b <=? a
  | _, _ => false
  end.

Definition le (x y : option Z) : bool :=
  match x, y with
  | Some a, Some b => a <=? b
  | _, _ => false
  end.

(** A number inside a template literal: the decimal digits of an integer *)
Definition numberToString (n : Z) : string :=
  NilZero.string_of_int (Z.to_int n).

(** [a.sort(cmp)]: the sort of the language is stable, so for a comparator
    that is a consistent ordering its result is the one of a stable
    insertion sort. *)
Section Sort.
Context {A : Type} (cmp : A -> A -> Z).

Fixpoint insert (x : A) (l : list A) : list A :=
  match l with
  | [] => [x]
  | y :: l' => if cmp x y <=? 0 then x :: y :: l' else y :: insert x l'
  end.

Definition sort (l : list A) : list A := fold_right insert [] l.
End Sort.

End JS.

(** ** Rider dashboard: routes, bookings and the page state *)

Module Route.
Record t : Type := mk {
  id : string;
  driverName : string;
  driverRating : Q;
  driverPhoto : string;
  vehicleInfo : string;
  from : string;
  to : string;
  passingStops : list string;
  departureTime : string;
  availableSeats : Z;
  pricePerSeat : Z;
  aiScore : Z;
  bookings : Z
}.
End Route.

Module Booking.
Record t : Type := mk {
  id : string;
  routeId : string;
  driverName : string;
  from : string;
  to : string;
  departureTime : string;
  status : string;
  seats : Z;
  totalPrice : Z;
  date : string
}.
End Booking.

(** Sample routes data *)
Definition allRoutes : list Route.t :=
  [ Route.mk "1" "Chidi O." (49 # 10) "" "Silver Honda Civic" "Ogba" "VI"
      ["Berger"; "Ketu"] "6:30 AM" 3 1500 95 2;
    Route.mk "2" "Amara K." (48 # 10) "" "Black Toyota Camry" "Ikeja" "Lekki"
      ["Obalende"] "7:00 AM" 2 2000 88 1;
    Route.mk "3" "Tunde A." (47 # 10) "" "Blue Hyundai Elantra" "Surulere" "CMS"
      ["Yaba"; "Oshodi"] "6:45 AM" 4 1200 92 0;
    Route.mk "4" "Ngozi M." (50 # 10) "" "White Mercedes Sedan" "Festac" "Marina"
      ["Ajah"; "Ikorodu"] "7:15 AM" 2 1800 96 2 ].

Module SearchParams.
Record t : Type := mk {
  from : string;
  to : string;
  timeRange : string
}.
End SearchParams.

Module RiderDashboard.

(** The state of the page; [routes] is the module-level route table the
    handlers read. *)
Record State : Type := mkState {
  routes : list Route.t;
  activeTab : string;
  searchResults : list Route.t;
  hasSearched : bool;
  bookings : list Booking.t
}.

Definition initialBookings : list Booking.t :=
  [ Booking.mk "BK001" "1" "Chidi O." "Ogba" "VI" "6:30 AM" "Confirmed" 1 1500 "Today" ].

Definition initialState : State :=
  mkState allRoutes "search" [] false initialBookings.

(** The hour in front of the first colon *)
Definition hourOf (clock : string) : option Z :=
  JS.parseIntAt (JS.split ":" clock) 0.

(** The predicate given to [allRoutes.filter] *)
Definition matches (p : SearchParams.t) (route : Route.t) : bool :=
  let routeTime := hourOf (Route.departureTime route) in
  let bounds := map hourOf (JS.split "-" (SearchParams.timeRange p)) in
  let startTime := match nth_error bounds 0 with Some v => v | None => None end in
  let endTime := match nth_error bounds 1 with Some v => v | None => None end in
  JS.includes (JS.toLowerCase (Route.from route)) (JS.toLowerCase (SearchParams.from p)) &&
  JS.includes (JS.toLowerCase (Route.to route)) (JS.toLowerCase (SearchParams.to p)) &&
  JS.ge routeTime startTime &&
  JS.le routeTime endTime &&
  (0 <? Route.availableSeats route).

(** The comparator given to [filtered.sort] *)
Definition byScore (a b : Route.t) : Z := Route.aiScore b - Route.aiScore a.

(** The list handed to [setSearchResults] *)
Definition search (table : list Route.t) (p : SearchParams.t) : list Route.t :=
  let filtered := filter (matches p) table in
  JS.sort byScore filtered.

Definition handleSearch (p : SearchParams.t) (s : State) : State :=
  mkState (routes s) (activeTab s) (search (routes s) p) true (bookings s).

(** [handleBooking(routeId, seats)]; [now] is the value of [Date.now()] *)
Definition newBooking (route : Route.t) (routeId : string) (seats now : Z) : Booking.t :=
  Booking.mk ("BK" ++ JS.numberToString now) routeId (Route.driverName route)
    (Route.from route) (Route.to route) (Route.departureTime route)
    "Confirmed" seats (Route.pricePerSeat route * seats) "Today".

Definition findRoute (table : list Route.t) (routeId : string) : option Route.t :=
  find (fun r => String.eqb (Route.id r) routeId) table.

Definition handleBooking (routeId : string) (seats now : Z) (s : State) : State :=
  match findRoute (routes s) routeId with
  | Some route =>
      mkState (routes s) "bookings" (searchResults s) (hasSearched s)
        (bookings s ++ [newBooking route routeId seats now])
  | None => s
  end.

End RiderDashboard.

(** ** Search results and the booking modal *)

Module SearchResults.

(** The capacity shown under a route card: [route.bookings +
    route.availableSeats], of which [route.bookings] are taken. *)
Definition capacity (route : Route.t) : Z :=
  Route.bookings route + Route.availableSeats route.

End SearchResults.

Module BookingModal.

(** [useState(1)] *)
Definition initialSeats : Z := 1.

Inductive Click : Type := Minus | Plus.

(** The two buttons of the seat selector *)
Definition click (route : Route.t) (seats : Z) (c : Click) : Z :=
  match c with
  | Minus => Z.max 1 (seats - 1)
  | Plus => Z.min (Route.availableSeats route) (seats + 1)
  end.

(** The seat count after a sequence of clicks *)
Definition seatsAfter (route : Route.t) (clicks : list Click) : Z :=
  fold_left (click route) clicks initialSeats.

(** "Proceed to Payment": [onConfirm(seats)], which the result list wires
    to [onBook(selectedRoute.id, seats)], the dashboard's [handleBooking]. *)
Definition confirm (selectedRoute : Route.t) (clicks : list Click) (now : Z)
    (s : RiderDashboard.State) : RiderDashboard.State :=
  RiderDashboard.handleBooking (Route.id selectedRoute)
    (seatsAfter selectedRoute clicks) now s.

End BookingModal.

(** ** Checkout page and the Interswitch modal *)

Module CheckoutPage.

Inductive Step : Type := review | payment | confirmation.

Record BookingData : Type := mkBookingData {
  from : string;
  to : string;
  driverName : string;
  departureTime : string;
  seats : Z;
  pricePerSeat : Z;
  totalPrice : Z
}.

Record State : Type := mkState {
  step : Step;
  bookingData : BookingData
}.

Definition initialState : State :=
  mkState review (mkBookingData "Ogba" "VI" "Chidi O." "6:30 AM" 1 1500 1500).

Definition setStep (v : Step) (s : State) : State := mkState v (bookingData s).

Definition handleProceedToPayment (s : State) : State := setStep payment s.

Definition handlePaymentComplete (transactionRef : string) (s : State) : State :=
  setStep confirmation s.

End CheckoutPage.

Module InterswitchModal.

Module PaymentParams.
Record t : Type := mk {
  merchant_code : string;
  pay_item_id : string;
  txn_ref : string;
  amount : Z;
  currency : Z;
  site_redirect_url : option string;
  cust_name : option string;
  cust_email : option string;
  mode : string
}.
End PaymentParams.

(** The properties of the component; [P] is the state of the parent, which
    the callbacks update. *)
Record Props (P : Type) : Type := mkProps {
  amount : Z;
  bookingId : option string;
  paymentParams : option PaymentParams.t;
  onClose : P -> P;
  onSuccess : string -> P -> P;
  onError : option (string -> P -> P)
}.
Arguments mkProps {P}.
Arguments amount {P}.
Arguments bookingId {P}.
Arguments paymentParams {P}.
Arguments onClose {P}.
Arguments onSuccess {P}.
Arguments onError {P}.

Inductive Step : Type := info | processing | success | error.

Record State : Type := mkState {
  step : Step;
  copied : bool;
  scriptLoaded : bool;
  errorMessage : string
}.

Definition initialState : State := mkState info false false "".

Definition setStep (v : Step) (s : State) : State :=
  mkState v (copied s) (scriptLoaded s) (errorMessage s).

Definition setErrorMessage (m : string) (s : State) : State :=
  mkState (step s) (copied s) (scriptLoaded s) m.

(** The response object handed to [onComplete] *)
Record Response : Type := mkResponse {
  resp : string;
  desc : option string
}.

(** The request object handed to [window.webpayCheckout] *)
Module Request.
Record t : Type := mk {
  merchant_code : string;
  pay_item_id : string;
  txn_ref : string;
  amount : Z;
  currency : Z;
  site_redirect_url : string;
  cust_name : option string;
  cust_email : option string;
  mode : string
}.
End Request.

(** What [window.webpayCheckout] may do with a request: throw, complete
    with a response, or not complete at all. *)
Inductive Checkout : Type :=
| Throws
| Completes (response : Response)
| Pending.

(** [x || d] on an optional string: the empty string is falsy. *)
Definition orElse (x : option string) (d : string) : string :=
  match x with
  | Some EmptyString | None => d
  | Some v => v
  end.

Definition callOnError {P : Type} (props : Props P) (msg : string) (parent : P) : P :=
  match onError props with
  | Some f => f msg parent
  | None => parent
  end.

Section Handlers.
Context {P : Type} (props : Props P).

(** [paymentCallback(response)], together with the timer it starts on
    success: the state of the modal and of its parent once the timer
    has fired. *)
Definition paymentCallback (pp : PaymentParams.t) (response : Response)
    (st : State * P) : State * P :=
  let '(modal, parent) := st in
  if String.eqb (resp response) "00" then
    (setStep success modal, onSuccess props (PaymentParams.txn_ref pp) parent)
  else
    (setErrorMessage
       (orElse (desc response) "Payment was not completed. Please try again.")
       (setStep error modal),
     callOnError props (orElse (desc response) "Payment failed") parent).

Definition interswitchRequest (origin : string) (pp : PaymentParams.t) : Request.t :=
  Request.mk (PaymentParams.merchant_code pp) (PaymentParams.pay_item_id pp)
    (PaymentParams.txn_ref pp) (PaymentParams.amount pp) (PaymentParams.currency pp)
    (orElse (PaymentParams.site_redirect_url pp) origin)
    (PaymentParams.cust_name pp) (PaymentParams.cust_email pp) (PaymentParams.mode pp).

(** [handlePayment()]; [webpayCheckout] is the gateway script and
    [origin] is [window.location.origin]. *)
Definition handlePayment (origin : string) (webpayCheckout : Request.t -> Checkout)
    (st : State * P) : State * P :=
  let '(modal, parent) := st in
  if negb (scriptLoaded modal) then
    (setErrorMessage "Payment gateway is still loading. Please wait..." modal, parent)
  else
    match paymentParams props with
    | None =>
        (setStep error
           (setErrorMessage "Payment parameters not available. Please try again." modal),
         parent)
    | Some pp =>
        let modal1 := setStep processing modal in
        match webpayCheckout (interswitchRequest origin pp) with
        | Throws =>
            (setErrorMessage "Failed to initiate payment. Please try again."
               (setStep error modal1),
             callOnError props "Payment initiation failed" parent)
        | Completes response => paymentCallback pp response (modal1, parent)
        | Pending => (modal1, parent)
        end
    end.
End Handlers.

(** The properties the checkout page gives the modal: the displayed amount
    is the total price of the booking, closing leads back to the review
    step and success leads to [handlePaymentComplete]; no error callback is
    given. The booking identifier and the payment parameters, which the
    interface of the modal requires, are arguments here. *)
Definition checkoutProps (page : CheckoutPage.State) (bid : option string)
    (pp : option PaymentParams.t) : Props CheckoutPage.State :=
  mkProps (CheckoutPage.totalPrice (CheckoutPage.bookingData page)) bid pp
    (CheckoutPage.setStep CheckoutPage.review)
    CheckoutPage.handlePaymentComplete
    None.

(** The checkout page of this tree passes neither of the two. *)
Definition mountedProps (page : CheckoutPage.State) : Props CheckoutPage.State :=
  checkoutProps page None None.

End InterswitchModal.

(** ** Booking confirmation: booking reference and seat token *)

Module BookingConfirmation.

(** What one render reads from its environment, in the order of the
    reads: [Date.now()] for the booking reference, [new
    Date().toISOString()] for the QR code, then [Date.now()] and
    [Math.random().toString(36)] for the seat token. *)
Record Env : Type := mkEnv {
  now1 : Z;
  isoNow : string;
  now2 : Z;
  random36 : string
}.

Definition bookingId (now : Z) : string := "BK-" ++ JS.numberToString now.

(** [Math.random().toString(36).substr(2, 9).toUpperCase()] *)
Definition nonce (random36 : string) : string :=
  JS.toUpperCase (JS.substr 2 9 random36).

Definition seatTokenId (now : Z) (random36 : string) : string :=
  "SEAT-" ++ JS.numberToString now ++ "-" ++ nonce random36.

(** The object given to [JSON.stringify] for the QR code *)
Record QrValue : Type := mkQrValue {
  qr_bookingId : string;
  qr_route : string;
  qr_timestamp : string
}.

Record View : Type := mkView {
  view_bookingId : string;
  view_qr : QrValue;
  view_seatTokenId : string
}.

Definition render (bookingData : CheckoutPage.BookingData) (env : Env) : View :=
  let bid := bookingId (now1 env) in
  mkView bid
    (mkQrValue bid
       (CheckoutPage.from bookingData ++ "-" ++ CheckoutPage.to bookingData)
       (isoNow env))
    (seatTokenId (now2 env) (random36 env)).

End BookingConfirmation.

(** ** The BookingVerification contract *)

Module BookingVerification.

Record BookingToken : Type := mkToken {
  bookingId : string;
  rider : Z;
  timestamp : Z;
  verified : bool;
  redeemed : bool
}.

(** The value of an unset key of a mapping *)
Definition zeroToken : BookingToken := mkToken "" 0 0 false false.

(** [mapping(string => BookingToken) tokens] *)
Definition Storage : Type := string -> BookingToken.

Definition emptyStorage : Storage := fun _ => zeroToken.

Definition store (tokens : Storage) (tokenId : string) (v : BookingToken) : Storage :=
  fun k => if String.eqb k tokenId then v else tokens k.

Inductive Event : Type :=
| TokenMinted (tokenId bookingId : string) (rider : Z)
| TokenRedeemed (tokenId : string) (driver : Z).

(** The block and message of one transaction *)
Record Env : Type := mkEnv {
  block_timestamp : Z;
  msg_sender : Z
}.

(** The result of one call: it returns with a new storage and its events,
    reverts with the reason of a failed [require], or panics on an
    arithmetic underflow. *)
Inductive Outcome : Type :=
| Returns (value : bool) (tokens : Storage) (events : list Event)
| Reverts (reason : string)
| Panics.

Definition mintToken (env : Env) (tokenId bkId : string) (rdr : Z)
    (tokens : Storage) : Outcome :=
  if negb (timestamp (tokens tokenId) =? 0) then Reverts "Token already exists"
  else
    Returns true
      (store tokens tokenId (mkToken bkId rdr (block_timestamp env) true false))
      [TokenMinted tokenId bkId rdr].

Definition setRedeemed (t : BookingToken) : BookingToken :=
  mkToken (bookingId t) (rider t) (timestamp t) (verified t) true.

Definition redeemToken (env : Env) (tokenId : string) (tokens : Storage) : Outcome :=
  let t := tokens tokenId in
  if negb (0 <? timestamp t) then Reverts "Token does not exist"
  else if redeemed t then Reverts "Token already redeemed"
  else if block_timestamp env <? timestamp t then Panics
  else if negb (block_timestamp env - timestamp t <? 86400) then Reverts "Token expired"
  else Returns true (store tokens tokenId (setRedeemed t)) [TokenRedeemed tokenId (msg_sender env)].

(** [verifyToken]: (exists, isValid, isRedeemed, timestamp), or [None]
    when the subtraction underflows. *)
Definition verifyToken (env : Env) (tokenId : string) (tokens : Storage)
    : option (bool * bool * bool * Z) :=
  let t := tokens tokenId in
  let exists_ := 0 <? timestamp t in
  if exists_ && negb (redeemed t) && (block_timestamp env <? timestamp t) then None
  else
    Some (exists_,
          exists_ && negb (redeemed t) && (block_timestamp env - timestamp t <? 86400),
          redeemed t,
          timestamp t).

(** A transaction is atomic: it commits the storage it returns, and a
    revert or panic leaves the storage as it was. *)
Definition commit (tokens : Storage) (o : Outcome) : Storage :=
  match o with
  | Returns _ tokens' _ => tokens'
  | _ => tokens
  end.

(** [redeemToken(tokenId)] sent in a series of transactions, in the order
    in which they are included in the chain. *)
Fixpoint redeemAll (tokenId : string) (schedule : list Env) (tokens : Storage)
    : list Outcome * Storage :=
  match schedule with
  | [] => ([], tokens)
  | env :: rest =>
      let o := redeemToken env tokenId tokens in
      let '(os, final) := redeemAll tokenId rest (commit tokens o) in
      (o :: os, final)
  end.

Definition succeeded (o : Outcome) : bool :=
  match o with
  | Returns true _ _ => true
  | _ => false
  end.

Definition alreadyRedeemed (o : Outcome) : bool :=
  match o with
  | Reverts reason => String.eqb reason "Token already redeemed"
  | _ => false
  end.

Definition count (p : Outcome -> bool) (os : list Outcome) : nat :=
  List.length (filter p os).

End BookingVerification.

(** ** Notions used to state the properties *)


(** [needle] occurs in [hay] up to the case of letters. *)
Definition ciSubstring (needle hay : string) : Prop :=
  exists pre mid post,
    hay = pre ++ mid ++ post /\ JS.toLowerCase mid = JS.toLowerCase needle.

(** Strings made of decimal digits only *)
Definition isDigit (c : ascii) : bool :=
  (48 <=? JS.code c)%N && (JS.code c <=? 57)%N.

Fixpoint digitsOnly (s : string) : bool :=
  match s with
  | EmptyString => true
  | String c s' => isDigit c && digitsOnly s'
  end.

(** Sample inputs *)
Definition sampleParams : InterswitchModal.PaymentParams.t :=
  InterswitchModal.PaymentParams.mk "MX6072" "9405967" "OPENRIDE-1699123456-abc123def"
    999 566 None (Some "Ada Obi") (Some "ada@example.com") "TEST".

Definition approving (_ : InterswitchModal.Request.t) : InterswitchModal.Checkout :=
  InterswitchModal.Completes (InterswitchModal.mkResponse "00" (Some "Approved by Financial Institution")).

Definition declining (_ : InterswitchModal.Request.t) : InterswitchModal.Checkout :=
  InterswitchModal.Completes (InterswitchModal.mkResponse "51" (Some "Insufficient funds")).

Definition loadedModal : InterswitchModal.State :=
  InterswitchModal.mkState InterswitchModal.info false true "".

Definition payingPage : CheckoutPage.State :=
  CheckoutPage.handleProceedToPayment CheckoutPage.initialState.

Definition sampleStorage : BookingVerification.Storage :=
  BookingVerification.store BookingVerification.emptyStorage "SEAT-abc12345-def67890"
    (BookingVerification.mkToken "abc12345" 7 1699123456 true false).

Definition sampleCalls : list BookingVerification.Env :=
  [ BookingVerification.mkEnv 1699130000 11;
    BookingVerification.mkEnv 1699130000 12;
    BookingVerification.mkEnv 1699130012 13 ].

(** ** Search form *)

Module SearchForm.

Definition locations : list string :=
  ["Ogba"; "Ikeja"; "Lekki"; "VI"; "Surulere"; "Festac"; "Marina"; "Yaba"].

(** The values of the options of the time-range select *)
Definition timeRanges : list string :=
  ["06:00-08:00"; "07:00-09:00"; "06:00-09:00"; "05:30-09:00"].

Record State : Type := mkState {
  formData : SearchParams.t;
  fromOpen : bool;
  toOpen : bool
}.

Definition initialState : State :=
  mkState (SearchParams.mk "" "" "06:00-08:00") false false.

(** A string in a condition: the empty string is falsy. *)
Definition truthy (s : string) : bool := negb (String.eqb s "").

(** [handleSearch(e)]: the argument of the call to [onSearch], if it is
    made. *)
Definition handleSearch (s : State) : option SearchParams.t :=
  if truthy (SearchParams.from (formData s)) && truthy (SearchParams.to (formData s))
  then Some (formData s) else None.

(** What the user can do with the form. A location button exists for each
    entry of [locations] while its list is open; the select offers the
    values of [timeRanges]. *)
Inductive Event : Type :=
| ToggleFrom
| ToggleTo
| PickFrom (loc : string)
| PickTo (loc : string)
| ChangeTime (value : string)
| Submit.

Definition offered (s : State) (e : Event) : bool :=
  match e with
  | PickFrom loc => fromOpen s && existsb (String.eqb loc) locations
  | PickTo loc => toOpen s && existsb (String.eqb loc) locations
  | ChangeTime value => existsb (String.eqb value) timeRanges
  | _ => true
  end.

Definition setFrom (loc : string) (d : SearchParams.t) : SearchParams.t :=
  SearchParams.mk loc (SearchParams.to d) (SearchParams.timeRange d).

Definition setTo (loc : string) (d : SearchParams.t) : SearchParams.t :=
  SearchParams.mk (SearchParams.from d) loc (SearchParams.timeRange d).

Definition setTimeRange (v : string) (d : SearchParams.t) : SearchParams.t :=
  SearchParams.mk (SearchParams.from d) (SearchParams.to d) v.

(** The state after an event and the query given to [onSearch], if any *)
Definition step (s : State) (e : Event) : State * option SearchParams.t :=
  if negb (offered s e) then (s, None)
  else
    match e with
    | ToggleFrom => (mkState (formData s) (negb (fromOpen s)) (toOpen s), None)
    | ToggleTo => (mkState (formData s) (fromOpen s) (negb (toOpen s)), None)
    | PickFrom loc => (mkState (setFrom loc (formData s)) false (toOpen s), None)
    | PickTo loc => (mkState (setTo loc (formData s)) (fromOpen s) false, None)
    | ChangeTime v => (mkState (setTimeRange v (formData s)) (fromOpen s) (toOpen s), None)
    | Submit => (s, handleSearch s)
    end.

(** The queries given to [onSearch] along a sequence of events, in order *)
Fixpoint submitted (s : State) (events : list Event) : list SearchParams.t :=
  match events with
  | [] => []
  | e :: rest =>
      let '(s', q) := step s e in
      match q with
      | Some p => p :: submitted s' rest
      | None => submitted s' rest
      end
  end.

End SearchForm.

(** ** Events of the rider dashboard and the bookings tab *)

Module DashboardEvents.

Inductive Event : Type :=
| Search (p : SearchParams.t)
| Book (routeId : string) (seats now : Z)
| SetActiveTab (tab : string).

Definition step (s : RiderDashboard.State) (e : Event) : RiderDashboard.State :=
  match e with
  | Search p => RiderDashboard.handleSearch p s
  | Book routeId seats now => RiderDashboard.handleBooking routeId seats now s
  | SetActiveTab tab =>
      RiderDashboard.mkState (RiderDashboard.routes s) tab
        (RiderDashboard.searchResults s) (RiderDashboard.hasSearched s)
        (RiderDashboard.bookings s)
  end.

Definition run (s : RiderDashboard.State) (events : list Event) : RiderDashboard.State :=
  fold_left step events s.

End DashboardEvents.

Module MyBookings.

(** What the bookings tab shows: the notice for an empty list, or the cards
    of the upcoming trips and, when there is one, the section of past
    trips. *)
Inductive View : Type :=
| NoBookings
| Trips (upcoming : list Booking.t) (past : option (list Booking.t)).

Definition isConfirmed (b : Booking.t) : bool := String.eqb (Booking.status b) "Confirmed".

Definition render (bookings : list Booking.t) : View :=
  if (List.length bookings =? 0)%nat then NoBookings
  else
    Trips (filter isConfirmed bookings)
      (if (0 <? List.length (filter (fun b => negb (isConfirmed b)) bookings))%nat
       then Some (filter (fun b => negb (isConfirmed b)) bookings)
       else None).

End MyBookings.

(** ** Cards of the result list *)

Module RouteCard.

(** [s[0]]: [None] is [undefined]. *)
Definition first (s : string) : option ascii :=
  match s with
  | String c _ => Some c
  | EmptyString => None
  end.

(** The two characters in the avatar, [driverName.split(" ")[0][0]] and
    [driverName.split(" ")[1][0]]; the result is [None] when the second
    index is applied to [undefined], which throws. *)
Definition initials (driverName : string) : option (option ascii * option ascii) :=
  let parts := JS.split " " driverName in
  match nth_error parts 0, nth_error parts 1 with
  | Some a, Some b => Some (first a, first b)
  | _, _ => None
  end.

(** The total in the price breakdown of the booking modal *)
Definition modalTotal (route : Route.t) (seats : Z) : Z :=
  Route.pricePerSeat route * seats.

End RouteCard.

(** ** The payment modal inside the checkout page *)

Module ModalEvents.

(** [handleRetry()] *)
Definition handleRetry (s : InterswitchModal.State) : InterswitchModal.State :=
  InterswitchModal.setErrorMessage "" (InterswitchModal.setStep InterswitchModal.info s).

(** [script.onload] and [script.onerror] of the gateway script *)
Definition scriptOnLoad (s : InterswitchModal.State) : InterswitchModal.State :=
  InterswitchModal.mkState (InterswitchModal.step s) (InterswitchModal.copied s) true
    (InterswitchModal.errorMessage s).

Definition scriptOnError (s : InterswitchModal.State) : InterswitchModal.State :=
  InterswitchModal.setStep InterswitchModal.error
    (InterswitchModal.setErrorMessage
       "Failed to load payment gateway. Please try again." s).

(** The [disabled] attribute of the Pay button *)
Definition payDisabled {P : Type} (props : InterswitchModal.Props P)
    (s : InterswitchModal.State) : bool :=
  negb (InterswitchModal.scriptLoaded s) ||
  match InterswitchModal.paymentParams props with
  | Some _ => false
  | None => true
  end.

(** The calls a component makes to the callbacks of its properties *)
Inductive Call : Type :=
| OnClose
| OnSuccess (transactionRef : string)
| OnError (error : string).

(** Properties whose callbacks record their calls *)
Definition loggingProps (amount : Z) (bid : option string)
    (pp : option InterswitchModal.PaymentParams.t) (withOnError : bool)
    : InterswitchModal.Props (list Call) :=
  InterswitchModal.mkProps amount bid pp
    (fun log => log ++ [OnClose])%list
    (fun ref log => log ++ [OnSuccess ref])%list
    (if withOnError then Some (fun e log => log ++ [OnError e])%list else None).

End ModalEvents.

Module CheckoutFlow.

(** The checkout page with the modal it mounts in the payment step.
    [issued] says that the mounted modal has handed a request to the
    gateway, so that the gateway may call its [onComplete]; [issuedEarlier]
    says the same of a modal that has been unmounted since. *)
Record Sys : Type := mkSys {
  page : CheckoutPage.State;
  modal : InterswitchModal.State;
  issued : bool;
  issuedEarlier : bool
}.

Definition initialSys : Sys :=
  mkSys CheckoutPage.initialState InterswitchModal.initialState false false.

Inductive Event : Type :=
| Proceed
| ScriptLoaded
| ScriptFailed
| Pay (webpayCheckout : InterswitchModal.Request.t -> InterswitchModal.Checkout)
| Complete (response : InterswitchModal.Response)
| LateComplete (response : InterswitchModal.Response)
| Retry
| Close.

Definition inPayment (s : Sys) : bool :=
  match CheckoutPage.step (page s) with
  | CheckoutPage.payment => true
  | _ => false
  end.

Definition modalStepIs (v : InterswitchModal.Step) (s : Sys) : bool :=
  match InterswitchModal.step (modal s), v with
  | InterswitchModal.info, InterswitchModal.info
  | InterswitchModal.processing, InterswitchModal.processing
  | InterswitchModal.success, InterswitchModal.success
  | InterswitchModal.error, InterswitchModal.error => true
  | _, _ => false
  end.

(** Leaving the payment step unmounts the modal. *)
Definition settle (s : Sys) : Sys :=
  if inPayment s then s
  else mkSys (page s) (modal s) false (issued s || issuedEarlier s).

Section Flow.
Context (bid : option string) (pp : option InterswitchModal.PaymentParams.t)
        (origin : string).

Definition props (s : Sys) : InterswitchModal.Props CheckoutPage.State :=
  InterswitchModal.checkoutProps (page s) bid pp.

(** The controls each view shows: the review step shows the button that
    proceeds; the info view of the modal shows Cancel and the Pay button;
    the error view shows Close and Try Again; the other views show none.
    The script events belong to the mounted modal, and the gateway may
    complete a request it has been handed. *)
Definition offered (s : Sys) (e : Event) : bool :=
  match e with
  | Proceed =>
      match CheckoutPage.step (page s) with CheckoutPage.review => true | _ => false end
  | ScriptLoaded | ScriptFailed => inPayment s
  | Pay _ =>
      inPayment s && modalStepIs InterswitchModal.info s &&
      negb (ModalEvents.payDisabled (props s) (modal s))
  | Complete _ => inPayment s && issued s
  | LateComplete _ => issuedEarlier s
  | Retry => inPayment s && modalStepIs InterswitchModal.error s
  | Close =>
      inPayment s &&
      (modalStepIs InterswitchModal.info s || modalStepIs InterswitchModal.error s)
  end.

Definition step (s : Sys) (e : Event) : Sys :=
  if negb (offered s e) then s
  else
    match e with
    | Proceed =>
        mkSys (CheckoutPage.handleProceedToPayment (page s))
          InterswitchModal.initialState false (issuedEarlier s)
    | ScriptLoaded =>
        mkSys (page s) (ModalEvents.scriptOnLoad (modal s)) (issued s) (issuedEarlier s)
    | ScriptFailed =>
        mkSys (page s) (ModalEvents.scriptOnError (modal s)) (issued s) (issuedEarlier s)
    | Pay webpayCheckout =>
        let after :=
          InterswitchModal.handlePayment (props s) origin webpayCheckout (modal s, page s) in
        settle (mkSys (snd after) (fst after) true (issuedEarlier s))
    | Complete response =>
        match pp with
        | Some params =>
            let after :=
              InterswitchModal.paymentCallback (props s) params response (modal s, page s) in
            settle (mkSys (snd after) (fst after) (issued s) (issuedEarlier s))
        | None => s
        end
    | LateComplete response =>
        match pp with
        | Some params =>
            let after :=
              InterswitchModal.paymentCallback (props s) params response (modal s, page s) in
            settle (mkSys (snd after) (modal s) (issued s) (issuedEarlier s))
        | None => s
        end
    | Retry =>
        mkSys (page s) (ModalEvents.handleRetry (modal s)) (issued s) (issuedEarlier s)
    | Close =>
        settle (mkSys (InterswitchModal.onClose (props s) (page s)) (modal s)
                  (issued s) (issuedEarlier s))
    end.

Definition run (s : Sys) (events : list Event) : Sys := fold_left step events s.

(** The event carries an approval: a response with code 00, given at once
    or later. *)
Definition approves (e : Event) : Prop :=
  match e, pp with
  | Pay webpayCheckout, Some params =>
      exists response,
        webpayCheckout (InterswitchModal.interswitchRequest origin params) =
          InterswitchModal.Completes response /\
        InterswitchModal.resp response = "00"
  | Complete response, Some _ => InterswitchModal.resp response = "00"
  | LateComplete response, Some _ => InterswitchModal.resp response = "00"
  | _, _ => False
  end.

End Flow.

End CheckoutFlow.

(** ** Payment callback page *)

Module PaymentCallback.

(** [localStorage] *)
Definition Storage : Type := string -> option string.

Definition getItem (st : Storage) (key : string) : option string := st key.

Definition removeItem (st : Storage) (key : string) : Storage :=
  fun k => if String.eqb k key then None else st k.

Inductive Status : Type := verifying | success | failed | error.

(** The fields of the body of the verification response that the page
    reads *)
Record VerificationData : Type := mkData {
  data_status : string;
  response_description : option string
}.

(** The verification call, which is awaited without a timeout: it resolves
    with a body, it rejects with an error that may carry a message
    ([error.response?.data?.message]), or it never settles. *)
Inductive Reply : Type :=
| Resolves (data : VerificationData)
| Rejects (message : option string)
| Pending.

Record Request : Type := mkRequest {
  transaction_ref : string;
  authorization : string
}.

Record State : Type := mkState {
  status : Status;
  message : string;
  paymentData : option VerificationData
}.

Definition initialState : State := mkState verifying "Verifying your payment..." None.

(** A nullable string in a condition: [null] and the empty string are
    falsy. *)
Definition truthy (x : option string) : bool :=
  match x with
  | Some EmptyString | None => false
  | Some _ => true
  end.

(** A nullable string inside a template literal *)
Definition show (x : option string) : string :=
  match x with
  | Some v => v
  | None => "null"
  end.

(** What one run of [verifyPayment] leaves behind: the page state, the
    storage, the request sent to the backend, if any, and the path given to
    [router.push] by the timer, if any. *)
Record Result : Type := mkResult {
  state : State;
  storage : Storage;
  request : option Request;
  redirect : option string
}.

(** [verifyPayment()]; [txnRef] is [searchParams.get('txnref')]. *)
Definition verifyPayment (txnRef : option string) (st : Storage)
    (post : Request -> Reply) : Result :=
  let storedTxnRef := getItem st "pending_payment_ref" in
  let bookingId := getItem st "pending_booking_id" in
  if negb (truthy txnRef) && negb (truthy storedTxnRef) then
    mkResult (mkState error "No transaction reference found. Please try again." None)
      st None None
  else
    let transactionRef := if truthy txnRef then show txnRef else show storedTxnRef in
    let req := mkRequest transactionRef ("Bearer " ++ show (getItem st "token")) in
    match post req with
    | Resolves verificationData =>
        if String.eqb (data_status verificationData) "successful" then
          mkResult
            (mkState success "Payment successful! Your booking has been confirmed."
               (Some verificationData))
            (removeItem (removeItem st "pending_payment_ref") "pending_booking_id")
            (Some req)
            (Some ("/booking/" ++ show bookingId ++ "/success"))
        else
          mkResult
            (mkState failed
               (InterswitchModal.orElse (response_description verificationData)
                  "Payment verification failed. Please try again.")
               (Some verificationData))
            st (Some req) None
    | Rejects msg =>
        mkResult
          (mkState error
             (InterswitchModal.orElse msg "An error occurred while verifying your payment.")
             None)
          st (Some req) None
    | Pending => mkResult initialState st (Some req) None
    end.

(** [handleRetry()]: the path given to [router.push] *)
Definition handleRetry (st : Storage) : string :=
  let bookingId := getItem st "pending_booking_id" in
  if truthy bookingId then "/payment/" ++ show bookingId else "/bookings".

(** [handleGoHome()]: the storage it leaves and the path it pushes *)
Definition handleGoHome (st : Storage) : Storage * string :=
  (removeItem (removeItem st "pending_payment_ref") "pending_booking_id", "/").

End PaymentCallback.

(** ** Histories of contract transactions *)

Module Chain.

Inductive Tx : Type :=
| Mint (env : BookingVerification.Env) (tokenId bookingId : string) (rider : Z)
| Redeem (env : BookingVerification.Env) (tokenId : string).

Definition exec (tokens : BookingVerification.Storage) (tx : Tx) : BookingVerification.Outcome :=
  match tx with
  | Mint env tokenId bookingId rider =>
      BookingVerification.mintToken env tokenId bookingId rider tokens
  | Redeem env tokenId => BookingVerification.redeemToken env tokenId tokens
  end.

Definition apply (tokens : BookingVerification.Storage) (tx : Tx) : BookingVerification.Storage :=
  BookingVerification.commit tokens (exec tokens tx).

(** The storage after a series of transactions *)
Definition runTxs (tokens : BookingVerification.Storage) (txs : list Tx)
    : BookingVerification.Storage :=
  fold_left apply txs tokens.

(** Each transaction of a series with its outcome *)
Fixpoint history (tokens : BookingVerification.Storage) (txs : list Tx)
    : list (Tx * BookingVerification.Outcome) :=
  match txs with
  | [] => []
  | tx :: rest => (tx, exec tokens tx) :: history (apply tokens tx) rest
  end.

Definition txToken (tx : Tx) : string :=
  match tx with
  | Mint _ tokenId _ _ => tokenId
  | Redeem _ tokenId => tokenId
  end.

Definition txTime (tx : Tx) : Z :=
  match tx with
  | Mint env _ _ _ => BookingVerification.block_timestamp env
  | Redeem env _ => BookingVerification.block_timestamp env
  end.

(** A redemption of [tokenId] that returned *)
Definition redeemedOk (tokenId : string) (entry : Tx * BookingVerification.Outcome) : bool :=
  match entry with
  | (Redeem _ t, o) => String.eqb t tokenId && BookingVerification.succeeded o
  | _ => false
  end.

End Chain.

(** ** Driver dashboard and route creation form *)

Module RouteForm.

Record FormData : Type := mkFormData {
  from : string;
  to : string;
  passingStops : list string;
  departureTime : string;
  availableSeats : option Z;
  pricePerSeat : option Z
}.

Definition initialFormData : FormData :=
  mkFormData "" "" [] "06:30" (Some 1) (Some 1500).

(** [a.includes(x)] on an array of strings *)
Definition arrayIncludes (a : list string) (x : string) : bool :=
  existsb (String.eqb x) a.

(** The new list of stops of [toggleBusStop(stop)] *)
Definition toggle (stops : list string) (stop : string) : list string :=
  if arrayIncludes stops stop
  then filter (fun s => negb (String.eqb s stop)) stops
  else (stops ++ [stop])%list.

Definition toggleBusStop (stop : string) (d : FormData) : FormData :=
  mkFormData (from d) (to d) (toggle (passingStops d) stop) (departureTime d)
    (availableSeats d) (pricePerSeat d).

(** [handleSubmit(e)]: the argument of the call to [onSubmit], if it is
    made. *)
Definition handleSubmit (d : FormData) : option FormData :=
  if SearchForm.truthy (from d) && SearchForm.truthy (to d) &&
     SearchForm.truthy (departureTime d)
  then Some d else None.

End RouteForm.

Module DriverDashboard.

Record Route : Type := mkRoute {
  id : string;
  from : string;
  to : string;
  passingStops : list string;
  departureTime : string;
  availableSeats : option Z;
  pricePerSeat : option Z;
  status : string;
  bookings : Z
}.

Definition initialRoutes : list Route :=
  [ mkRoute "1" "Ogba" "VI" ["Berger"; "Ketu"] "6:30 AM" (Some 3) (Some 1500) "active" 2;
    mkRoute "2" "Ikeja" "Lekki" ["Obalende"] "7:00 AM" (Some 2) (Some 2000) "active" 1 ].

(** [handleCreateRoute(newRoute)]; [now] is the value of [Date.now()]. *)
Definition handleCreateRoute (newRoute : RouteForm.FormData) (now : Z)
    (routes : list Route) : list Route :=
  (routes ++
   [mkRoute (JS.numberToString now) (RouteForm.from newRoute) (RouteForm.to newRoute)
      (RouteForm.passingStops newRoute) (RouteForm.departureTime newRoute)
      (RouteForm.availableSeats newRoute) (RouteForm.pricePerSeat newRoute)
      "active" 0])%list.

Definition setStatus (newStatus : string) (r : Route) : Route :=
  mkRoute (id r) (from r) (to r) (passingStops r) (departureTime r)
    (availableSeats r) (pricePerSeat r) newStatus (bookings r).

(** [handleUpdateRouteStatus(routeId, newStatus)] *)
Definition handleUpdateRouteStatus (routeId newStatus : string)
    (routes : list Route) : list Route :=
  map (fun r => if String.eqb (id r) routeId then setStatus newStatus r else r) routes.

(** What the driver can do: submit the route form, or pick one of the two
    entries of the menu of the card at a position of the list, which the
    card shows while its route is active. *)
Inductive MenuEntry : Type := MarkDeparted | CancelRoute.

Definition entryStatus (m : MenuEntry) : string :=
  match m with
  | MarkDeparted => "departed"
  | CancelRoute => "cancelled"
  end.

Inductive Event : Type :=
| Submit (formData : RouteForm.FormData) (now : Z)
| Menu (position : nat) (entry : MenuEntry).

Definition step (routes : list Route) (e : Event) : list Route :=
  match e with
  | Submit formData now =>
      match RouteForm.handleSubmit formData with
      | Some newRoute => handleCreateRoute newRoute now routes
      | None => routes
      end
  | Menu position entry =>
      match nth_error routes position with
      | Some r =>
          if String.eqb (status r) "active"
          then handleUpdateRouteStatus (id r) (entryStatus entry) routes
          else routes
      | None => routes
      end
  end.

Definition run (routes : list Route) (events : list Event) : list Route :=
  fold_left step events routes.

(** The identifiers the events of a series give to new routes *)
Definition newIds (e : Event) : list string :=
  match e with
  | Submit formData now =>
      match RouteForm.handleSubmit formData with
      | Some _ => [JS.numberToString now]
      | None => []
      end
  | Menu _ _ => []
  end.

End DriverDashboard.

(** ** Invariants used in the proofs *)

(** The form holds, for origin and destination, nothing or a location of the
    list, and a time range of the select. *)
Definition formWellFormed (s : SearchForm.State) : Prop :=
  (SearchParams.from (SearchForm.formData s) = "" \/
   In (SearchParams.from (SearchForm.formData s)) SearchForm.locations) /\
  (SearchParams.to (SearchForm.formData s) = "" \/
   In (SearchParams.to (SearchForm.formData s)) SearchForm.locations) /\
  In (SearchParams.timeRange (SearchForm.formData s)) SearchForm.timeRanges.

(** What is true of every booking the dashboard creates *)
Definition createdBooking (table : list Route.t) (b : Booking.t) : Prop :=
  Booking.status b = "Confirmed" /\
  exists route,
    In route table /\ Route.id route = Booking.routeId b /\
    Booking.totalPrice b = Route.pricePerSeat route * Booking.seats b /\
    Booking.from b = Route.from route /\ Booking.to b = Route.to route.

(** The fields of a route of the driver other than its status *)
Definition sameButStatus (r r' : DriverDashboard.Route) : Prop :=
  DriverDashboard.id r' = DriverDashboard.id r /\
  DriverDashboard.from r' = DriverDashboard.from r /\
  DriverDashboard.to r' = DriverDashboard.to r /\
  DriverDashboard.passingStops r' = DriverDashboard.passingStops r /\
  DriverDashboard.departureTime r' = DriverDashboard.departureTime r /\
  DriverDashboard.availableSeats r' = DriverDashboard.availableSeats r /\
  DriverDashboard.pricePerSeat r' = DriverDashboard.pricePerSeat r /\
  DriverDashboard.bookings r' = DriverDashboard.bookings r.

(** ** Time windows to the minute *)



(** ** The booking lifecycle of the specification *)

Module Lifecycle.

(** Modelled from the spec: the lifecycle states of a booking (the backend's
    booking model is not among the sources). *)
Inductive State : Type :=
| created | paid | token_issued | redeemed | expired | cancelled.

(** Modelled from the spec: the error kinds of the lifecycle and token
    operations. *)
Inductive Error : Type :=
| CapacityError
| StateError
| AmountMismatchError
| ExpiredError
| AlreadyRedeemedError
| UnauthorizedError
| MalformedTokenError
| UnknownBookingError.

(** Modelled from the spec: the fields of a route candidate that the
    lifecycle reads. *)
Record RouteCandidate : Type := mkCandidate {
  candidateId : string;
  driver : string;
  capacity : Z;
  booked : Z;
  pricePerSeat : Z
}.

(** Modelled from the spec: the verification token. *)
Record VerificationToken : Type := mkToken {
  tokenId : string;
  integrityTag : string;
  issuedAt : Z;
  expiresAt : Z;
  tokenRedeemed : bool
}.

(** Modelled from the spec: the booking record. *)
Record Booking : Type := mkBooking {
  bookingId : string;
  rider : string;
  candidate : RouteCandidate;
  seats : Z;
  totalPrice : Z;
  state : State;
  createdAt : Z;
  token : option VerificationToken;
  redeemedAt : option Z
}.

(** Modelled from the spec: the fixed time to live of a token, 24 hours in
    seconds. *)
Definition TTL : Z := 86400.

(** Modelled from the spec: the booking store of the lifecycle, as the list
    of its bookings; a booking is found by its identifier. *)
Definition lookup (bookings : list Booking) (id : string) : option Booking :=
  find (fun b => String.eqb (bookingId b) id) bookings.

(** Modelled from the spec: a booking of the store is replaced by its
    successor with the same identifier. *)
Definition replace (b' : Booking) (bookings : list Booking) : list Booking :=
  map (fun b => if String.eqb (bookingId b) (bookingId b') then b' else b) bookings.

(** Modelled from the spec: the booking after its payment was confirmed, in
    token_issued with the minted token attached. *)
Definition issue (t : VerificationToken) (b : Booking) : Booking :=
  mkBooking (bookingId b) (rider b) (candidate b) (seats b) (totalPrice b)
    token_issued (createdAt b) (Some t) (redeemedAt b).

Section Engine.
(** The derivation of a token identifier from the booking identifier and the
    nonce, and the one-way hash of the integrity tag; the specification
    leaves both open. *)
Variable deriveId : string -> string -> string.
Variable hash : string -> string -> string -> Z -> Z -> string.

(** Modelled from the spec: the Token Engine's mint, which the backend's
    token utilities implement and the sources do not hold: the identifier
    is derived from the booking identifier and a nonce, the integrity tag is
    a hash over booking, candidate and rider identifiers, total price and
    issuance time, and the token expires one time to live after issuance. *)
Definition mint (b : Booking) (now : Z) (nonce : string) : VerificationToken :=
  mkToken (deriveId (bookingId b) nonce)
    (hash (bookingId b) (candidateId (candidate b)) (rider b) (totalPrice b) now)
    now (now + TTL) false.

(** Modelled from the spec: the Booking Lifecycle Controller's
    confirmPayment, which the backend's payment verification implements
    and the sources do not hold (the front end only calls it). It fails
    with StateError unless the booking is in created, fails with
    AmountMismatchError if the amount paid is not seats times price, and on
    success takes the booking to paid, mints one token and leaves the
    booking in token_issued. A failure leaves the bookings as they were. *)
Definition confirmPayment (bookings : list Booking) (id : string)
    (amountPaid now : Z) (nonce : string)
    : (Error + VerificationToken) * list Booking :=
  match lookup bookings id with
  | None => (inl UnknownBookingError, bookings)
  | Some b =>
      match state b with
      | created =>
          if amountPaid =? seats b * pricePerSeat (candidate b) then
            let t := mint b now nonce in
            (inr t, replace (issue t b) bookings)
          else (inl AmountMismatchError, bookings)
      | _ => (inl StateError, bookings)
      end
  end.

End Engine.

End Lifecycle.

(** A booking of two seats at 1500 that awaits its payment *)
Definition pendingBooking : Lifecycle.Booking :=
  Lifecycle.mkBooking "abc12345" "rider-7"
    (Lifecycle.mkCandidate "1" "driver-3" 4 2 1500) 2 3000 Lifecycle.created
    1699123456 None None.

(** ** Facts about the string primitives *)

Module JSFacts.
Import JS.

Lemma mapChars_app f (a b : string) :
  mapChars f (a ++ b) = mapChars f a ++ mapChars f b.
Proof. induction a as [|c a IH]; simpl; [reflexivity | now rewrite IH]. Qed.

Lemma mapChars_length f (s : string) :
  String.length (mapChars f s) = String.length s.
Proof. induction s as [|c s IH]; simpl; [reflexivity | now rewrite IH]. Qed.

(** A split of the image of a string is the image of a split of it. *)
Lemma mapChars_eq_app f (s p q : string) :
  mapChars f s = p ++ q ->
  exists s1 s2, s = s1 ++ s2 /\ mapChars f s1 = p /\ mapChars f s2 = q.
Proof.
  revert s; induction p as [|c p IH]; intros s H; simpl in H.
  - exists EmptyString, s. repeat split; assumption.
  - destruct s as [|d s]; simpl in H; [discriminate|].
    injection H as Hc Hs.
    destruct (IH _ Hs) as (s1 & s2 & -> & H1 & H2).
    exists (String d s1), s2. simpl. rewrite Hc, H1. repeat split; assumption.
Qed.

Lemma prefix_iff (t s : string) :
  String.prefix t s = true <-> exists post, s = t ++ post.
Proof.
  revert s; induction t as [|c t IH]; intros s; simpl.
  - split; [intros _; exists s; reflexivity | destruct s; reflexivity].
  - destruct s as [|d s]; simpl.
    + split; [discriminate | intros [post H]; discriminate].
    + destruct (ascii_dec c d) as [->|Hne].
      * rewrite IH. split; intros [post H]; exists post.
        -- now rewrite H.
        -- now injection H.
      * split; [discriminate | intros [post H]; injection H; congruence].
Qed.

(** [includes] decides the presence of [t] as a contiguous part of [s]. *)
Lemma includes_iff (s t : string) :
  includes s t = true <-> exists pre post, s = pre ++ t ++ post.
Proof.
  induction s as [|c s IH].
  - cbn [includes]. rewrite orb_false_r, prefix_iff. split.
    + intros [post H]. exists EmptyString, post. exact H.
    + intros (pre & post & H). destruct pre; simpl in H.
      * exists post; exact H.
      * discriminate.
  - cbn [includes]. rewrite orb_true_iff, prefix_iff, IH. split.
    + intros [[post H] | (pre & post & H)].
      * exists EmptyString, post. exact H.
      * exists (String c pre), post. simpl. now rewrite H.
    + intros (pre & post & H). destruct pre as [|d pre]; simpl in H.
      * left. exists post. exact H.
      * right. injection H as _ H. exists pre, post. exact H.
Qed.

Section SortFacts.
Context {A : Type} (cmp : A -> A -> Z).

Lemma insert_perm (x : A) (l : list A) : Permutation (x :: l) (insert cmp x l).
Proof.
  induction l as [|y l IH]; simpl; [apply Permutation_refl|].
  destruct (cmp x y <=? 0); [apply Permutation_refl|].
  eapply perm_trans; [apply perm_swap | apply perm_skip, IH].
Qed.

Lemma sort_perm (l : list A) : Permutation l (sort cmp l).
Proof.
  induction l as [|x l IH]; simpl; [constructor|].
  eapply perm_trans; [apply perm_skip, IH | apply insert_perm].
Qed.

Lemma sort_In (l : list A) (x : A) : In x (sort cmp l) <-> In x l.
Proof.
  split; intros H.
  - eapply Permutation_in; [apply Permutation_sym, sort_perm | exact H].
  - eapply Permutation_in; [apply sort_perm | exact H].
Qed.

(** Ordering, for a comparator that is transitive and total. *)
Hypothesis cmp_trans : forall x y z, cmp x y <= 0 -> cmp y z <= 0 -> cmp x z <= 0.
Hypothesis cmp_total : forall x y, 0 < cmp x y -> cmp y x <= 0.

Let before (x y : A) : Prop := cmp x y <= 0.

Lemma insert_sorted (x : A) (l : list A) :
  StronglySorted before l -> StronglySorted before (insert cmp x l).
Proof.
  induction 1 as [|y l Hs IH Hall]; simpl.
  - constructor; constructor.
  - destruct (Z.leb_spec (cmp x y) 0) as [Hle|Hgt].
    + constructor; [constructor; assumption|].
      constructor; [exact Hle|].
      eapply Forall_impl; [|exact Hall].
      intros z Hz. unfold before in *. eapply cmp_trans; eassumption.
    + constructor; [exact IH|].
      rewrite Forall_forall. intros z Hz.
      apply (Permutation_in _ (Permutation_sym (insert_perm x l))) in Hz.
      destruct Hz as [<-|Hz].
      * apply cmp_total, Hgt.
      * rewrite Forall_forall in Hall. apply Hall, Hz.
Qed.

Lemma sort_sorted (l : list A) : StronglySorted before (sort cmp l).
Proof.
  induction l as [|x l IH]; simpl; [constructor | apply insert_sorted, IH].
Qed.
End SortFacts.

(** Stability: a class [p] of elements that the comparator does not
    separate keeps its order. *)
Section Stability.
Context {A : Type} (cmp : A -> A -> Z) (p : A -> bool).
Hypothesis p_tied : forall x y, p x = true -> p y = true -> cmp x y <= 0.

Lemma filter_insert (x : A) (l : list A) :
  filter p (insert cmp x l) = filter p (x :: l).
Proof.
  induction l as [|y l IH]; [reflexivity|].
  cbn [insert]. destruct (Z.leb_spec (cmp x y) 0) as [Hle|Hgt]; [reflexivity|].
  cbn [filter] in *. rewrite IH.
  destruct (p x) eqn:Hx, (p y) eqn:Hy; try reflexivity.
  specialize (p_tied x y Hx Hy). lia.
Qed.

Lemma filter_sort (l : list A) : filter p (sort cmp l) = filter p l.
Proof.
  induction l as [|x l IH]; [reflexivity|].
  cbn [sort fold_right]. fold (sort cmp l). rewrite filter_insert.
  cbn [filter]. now rewrite IH.
Qed.
End Stability.

End JSFacts.

(** ** Search and ranking *)

Module SearchFacts.
Import RiderDashboard.

Lemma StronglySorted_weaken {A : Type} (R R' : A -> A -> Prop) (l : list A) :
  (forall x y, R x y -> R' x y) -> StronglySorted R l -> StronglySorted R' l.
Proof.
  intros HR. induction 1 as [|x l Hs IH Hall]; constructor.
  - exact IH.
  - eapply Forall_impl; [|exact Hall]. intros y; apply HR.
Qed.

(** The result holds exactly the routes of the table that pass the filter. *)
Lemma search_In (table : list Route.t) (p : SearchParams.t) (route : Route.t) :
  In route (search table p) <-> In route table /\ matches p route = true.
Proof. unfold search. rewrite JSFacts.sort_In, filter_In. reflexivity. Qed.

Lemma search_perm (table : list Route.t) (p : SearchParams.t) :
  Permutation (filter (matches p) table) (search table p).
Proof. apply JSFacts.sort_perm. Qed.

Lemma matches_split (p : SearchParams.t) (route : Route.t) :
  matches p route = true ->
  JS.includes (JS.toLowerCase (Route.from route)) (JS.toLowerCase (SearchParams.from p)) = true /\
  JS.includes (JS.toLowerCase (Route.to route)) (JS.toLowerCase (SearchParams.to p)) = true /\
  0 < Route.availableSeats route.
Proof.
  unfold matches. rewrite !andb_true_iff, Z.ltb_lt. tauto.
Qed.

(** The window test compares whole hours only. *)
Lemma matches_hours (p : SearchParams.t) (route : Route.t) :
  matches p route = true ->
  exists h lo hi,
    hourOf (Route.departureTime route) = Some h /\
    nth_error (map hourOf (JS.split "-" (SearchParams.timeRange p))) 0 = Some (Some lo) /\
    nth_error (map hourOf (JS.split "-" (SearchParams.timeRange p))) 1 = Some (Some hi) /\
    lo <= h <= hi.
Proof.
  unfold matches. rewrite !andb_true_iff. intros [[[[_ _] Hge] Hle] _].
  destruct (hourOf (Route.departureTime route)) as [h|]; [|discriminate].
  destruct (nth_error _ 0) as [[lo|]|]; try discriminate.
  destruct (nth_error _ 1) as [[hi|]|]; try discriminate.
  simpl in Hge, Hle. apply Z.leb_le in Hge, Hle.
  exists h, lo, hi. repeat split; assumption.
Qed.

End SearchFacts.

Lemma includes_ciSubstring (hay needle : string) :
  JS.includes (JS.toLowerCase hay) (JS.toLowerCase needle) = true <->
  ciSubstring needle hay.
Proof.
  rewrite JSFacts.includes_iff. unfold ciSubstring, JS.toLowerCase. split.
  - intros (pre & post & H).
    apply JSFacts.mapChars_eq_app in H. destruct H as (h1 & h2 & -> & H1 & H2).
    apply JSFacts.mapChars_eq_app in H2. destruct H2 as (h3 & h4 & -> & H3 & H4).
    exists h1, h3, h4. split; [reflexivity | exact H3].
  - intros (pre & mid & post & -> & Hmid).
    exists (JS.mapChars JS.lowerChar pre), (JS.mapChars JS.lowerChar post).
    now rewrite !JSFacts.mapChars_app, Hmid.
Qed.

(** C3: for every search query and every table of candidate routes, no route
    in the list that the search hands to the result view has an
    available-seat count of zero. *)
Theorem search_excludes_zero_seats :
  forall (s : RiderDashboard.State) (p : SearchParams.t),
    Forall (fun route => Route.availableSeats route <> 0)
      (RiderDashboard.searchResults (RiderDashboard.handleSearch p s)).
Proof.
  intros s p. rewrite Forall_forall. intros route Hin. simpl in Hin.
  apply SearchFacts.search_In in Hin. destruct Hin as [_ Hm].
  apply SearchFacts.matches_split in Hm. lia.
Qed.

(** X29: on every route table the search returns the routes that pass the
    filter, each as often as the table has it, ordered by score, highest
    first; routes with equal scores keep the order they have in the table. *)
Theorem search_sorted_by_score_stable :
  forall (table : list Route.t) (p : SearchParams.t),
    StronglySorted (fun a b => Route.aiScore b <= Route.aiScore a)
      (RiderDashboard.search table p) /\
    (forall v : Z,
        filter (fun r => Route.aiScore r =? v) (RiderDashboard.search table p) =
        filter (fun r => Route.aiScore r =? v) (filter (RiderDashboard.matches p) table)) /\
    Permutation (filter (RiderDashboard.matches p) table) (RiderDashboard.search table p).
Proof.
  intros table p. split; [|split].
  - eapply SearchFacts.StronglySorted_weaken;
      [| apply (JSFacts.sort_sorted RiderDashboard.byScore)].
    + unfold RiderDashboard.byScore. intros x y H. lia.
    + unfold RiderDashboard.byScore. intros x y z H1 H2. lia.
    + unfold RiderDashboard.byScore. intros x y H. lia.
  - intros v. unfold RiderDashboard.search. apply JSFacts.filter_sort.
    intros x y Hx Hy. apply Z.eqb_eq in Hx, Hy.
    unfold RiderDashboard.byScore. lia.
  - apply SearchFacts.search_perm.
Qed.

(** C8: two runs of the search on identical queries and identical route
    tables produce identical result lists, element for element, whatever
    else differs between the two page states; a run leaves the route table
    as it found it. *)
Theorem handleSearch_deterministic :
  forall (p p' : SearchParams.t) (s s' : RiderDashboard.State),
    p = p' ->
    RiderDashboard.routes s = RiderDashboard.routes s' ->
    RiderDashboard.searchResults (RiderDashboard.handleSearch p s) =
    RiderDashboard.searchResults (RiderDashboard.handleSearch p' s') /\
    RiderDashboard.routes (RiderDashboard.handleSearch p s) = RiderDashboard.routes s.
Proof.
  intros p p' s s' -> Hr. simpl. rewrite Hr. split; reflexivity.
Qed.

(** C10: every route returned for a query with non-empty origin and
    destination has the query's origin as a case-insensitive substring of
    its origin and the query's destination as a case-insensitive substring
    of its destination. *)
Theorem search_matches_by_substring :
  forall (s : RiderDashboard.State) (p : SearchParams.t) (route : Route.t),
    SearchParams.from p <> "" ->
    SearchParams.to p <> "" ->
    In route (RiderDashboard.searchResults (RiderDashboard.handleSearch p s)) ->
    ciSubstring (SearchParams.from p) (Route.from route) /\
    ciSubstring (SearchParams.to p) (Route.to route).
Proof.
  intros s p route _ _ Hin. simpl in Hin.
  apply SearchFacts.search_In in Hin. destruct Hin as [_ Hm].
  apply SearchFacts.matches_split in Hm. destruct Hm as (Hf & Ht & _).
  split; apply includes_ciSubstring; assumption.
Qed.

(** ** Booking creation and the seat selector *)

Module BookingFacts.
Import RiderDashboard.

Lemma click_bounds (route : Route.t) (seats : Z) (c : BookingModal.Click) :
  1 <= Route.availableSeats route ->
  1 <= seats <= Route.availableSeats route ->
  1 <= BookingModal.click route seats c <= Route.availableSeats route.
Proof. intros Ha Hs. destruct c; simpl; lia. Qed.

Lemma fold_click_bounds (route : Route.t) (clicks : list BookingModal.Click) :
  1 <= Route.availableSeats route ->
  forall seats,
    1 <= seats <= Route.availableSeats route ->
    1 <= fold_left (BookingModal.click route) clicks seats <= Route.availableSeats route.
Proof.
  intros Ha. induction clicks as [|c clicks IH]; intros seats Hs; simpl.
  - exact Hs.
  - apply IH, click_bounds; assumption.
Qed.

Lemma handleBooking_found (routeId : string) (seats now : Z) (s : State) (route : Route.t) :
  findRoute (routes s) routeId = Some route ->
  handleBooking routeId seats now s =
  mkState (routes s) "bookings" (searchResults s) (hasSearched s)
    (bookings s ++ [newBooking route routeId seats now]).
Proof. intros H. unfold handleBooking. now rewrite H. Qed.

Lemma handleBooking_routes (routeId : string) (seats now : Z) (s : State) :
  routes (handleBooking routeId seats now s) = routes s.
Proof. unfold handleBooking. destruct (findRoute _ _); reflexivity. Qed.

End BookingFacts.

(** C1 (amended): a successful booking creation appends one confirmed
    booking with the requested seats and a total price of price per seat
    times seats, and leaves the route table as it was: the route's
    available-seat count, its booked count and the capacity shown for it
    (booked plus available) are the same before and after. *)
Theorem handleBooking_keeps_seats :
  forall (routeId : string) (seats now : Z) (s : RiderDashboard.State) (route : Route.t),
    RiderDashboard.findRoute (RiderDashboard.routes s) routeId = Some route ->
    RiderDashboard.bookings (RiderDashboard.handleBooking routeId seats now s) =
      (RiderDashboard.bookings s ++
       [Booking.mk ("BK" ++ JS.numberToString now) routeId (Route.driverName route)
          (Route.from route) (Route.to route) (Route.departureTime route)
          "Confirmed" seats (Route.pricePerSeat route * seats) "Today"])%list /\
    RiderDashboard.routes (RiderDashboard.handleBooking routeId seats now s) =
      RiderDashboard.routes s /\
    RiderDashboard.findRoute
      (RiderDashboard.routes (RiderDashboard.handleBooking routeId seats now s)) routeId =
      Some route /\
    map SearchResults.capacity
      (RiderDashboard.routes (RiderDashboard.handleBooking routeId seats now s)) =
    map SearchResults.capacity (RiderDashboard.routes s).
Proof.
  intros routeId seats now s route Hfind.
  rewrite (BookingFacts.handleBooking_found _ _ _ _ _ Hfind). simpl.
  repeat split; try reflexivity. exact Hfind.
Qed.

Lemma handleBooking_keeps_seats_witness :
  RiderDashboard.findRoute (RiderDashboard.routes RiderDashboard.initialState) "1" =
    Some (Route.mk "1" "Chidi O." (49 # 10) "" "Silver Honda Civic" "Ogba" "VI"
            ["Berger"; "Ketu"] "6:30 AM" 3 1500 95 2) /\
  map SearchResults.capacity
    (RiderDashboard.routes
       (RiderDashboard.handleBooking "1" 2 1700000000000 RiderDashboard.initialState)) =
  map SearchResults.capacity (RiderDashboard.routes RiderDashboard.initialState).
Proof.
  split; [reflexivity|].
  apply (handleBooking_keeps_seats "1" 2 1700000000000 RiderDashboard.initialState
           (Route.mk "1" "Chidi O." (49 # 10) "" "Silver Honda Civic" "Ogba" "VI"
              ["Berger"; "Ketu"] "6:30 AM" 3 1500 95 2)).
  reflexivity.
Defined.

(** C1, as stated, fails: booking 2 seats on route 1 succeeds and the route
    still has its 3 available seats, not 1. *)
Lemma handleBooking_no_decrement_counterexample :
  List.length
    (RiderDashboard.bookings
       (RiderDashboard.handleBooking "1" 2 1700000000000 RiderDashboard.initialState)) =
  S (List.length (RiderDashboard.bookings RiderDashboard.initialState)) /\
  option_map Route.availableSeats
    (RiderDashboard.findRoute
       (RiderDashboard.routes
          (RiderDashboard.handleBooking "1" 2 1700000000000 RiderDashboard.initialState)) "1")
  <> option_map (fun r => Route.availableSeats r - 2)
       (RiderDashboard.findRoute (RiderDashboard.routes RiderDashboard.initialState) "1").
Proof. split; [reflexivity | discriminate]. Qed.

(** C2 (amended): booking creation has no capacity check and raises no
    capacity error: for a route of the table it appends the booking whatever
    the number of seats. Requests above the availability are kept out by the
    seat selector instead: for a route with at least one available seat the
    count it hands over lies between 1 and the route's available seats. *)
Theorem booking_seats_capped_by_selector :
  forall (route : Route.t) (clicks : list BookingModal.Click) (now : Z)
         (s : RiderDashboard.State),
    1 <= Route.availableSeats route ->
    RiderDashboard.findRoute (RiderDashboard.routes s) (Route.id route) = Some route ->
    1 <= BookingModal.seatsAfter route clicks <= Route.availableSeats route /\
    RiderDashboard.bookings (BookingModal.confirm route clicks now s) =
      (RiderDashboard.bookings s ++
       [RiderDashboard.newBooking route (Route.id route)
          (BookingModal.seatsAfter route clicks) now])%list /\
    (forall seats : Z,
        RiderDashboard.bookings (RiderDashboard.handleBooking (Route.id route) seats now s) =
        (RiderDashboard.bookings s ++
         [RiderDashboard.newBooking route (Route.id route) seats now])%list).
Proof.
  intros route clicks now s Ha Hfind. split; [|split].
  - apply BookingFacts.fold_click_bounds; [exact Ha|].
    unfold BookingModal.initialSeats. lia.
  - unfold BookingModal.confirm.
    now rewrite (BookingFacts.handleBooking_found _ _ _ _ _ Hfind).
  - intros seats. now rewrite (BookingFacts.handleBooking_found _ _ _ _ _ Hfind).
Qed.

Lemma booking_seats_capped_by_selector_witness :
  1 <= BookingModal.seatsAfter
         (Route.mk "2" "Amara K." (48 # 10) "" "Black Toyota Camry" "Ikeja" "Lekki"
            ["Obalende"] "7:00 AM" 2 2000 88 1)
         [BookingModal.Plus; BookingModal.Plus; BookingModal.Plus; BookingModal.Minus;
          BookingModal.Plus] <= 2.
Proof.
  apply (booking_seats_capped_by_selector
           (Route.mk "2" "Amara K." (48 # 10) "" "Black Toyota Camry" "Ikeja" "Lekki"
              ["Obalende"] "7:00 AM" 2 2000 88 1)
           [BookingModal.Plus; BookingModal.Plus; BookingModal.Plus; BookingModal.Minus;
            BookingModal.Plus]
           1700000000000 RiderDashboard.initialState).
  - simpl. lia.
  - reflexivity.
Defined.

(** C2, as stated, fails: on route 2, which has 2 available seats, a booking
    of 5 seats is accepted, and after a booking of 2 seats a further booking
    of 1 seat is accepted as well. *)
Lemma capacity_error_counterexample :
  option_map Route.availableSeats
    (RiderDashboard.findRoute (RiderDashboard.routes RiderDashboard.initialState) "2") = Some 2 /\
  map Booking.seats
    (RiderDashboard.bookings
       (RiderDashboard.handleBooking "2" 5 1700000000000 RiderDashboard.initialState))
  = [1; 5] /\
  map (fun b => (Booking.routeId b, Booking.seats b))
    (RiderDashboard.bookings
       (RiderDashboard.handleBooking "2" 1 1700000000500
          (RiderDashboard.handleBooking "2" 2 1700000000000 RiderDashboard.initialState)))
  = [("1", 1); ("2", 2); ("2", 1)].
Proof. repeat split. Qed.

(** ** Seat token *)

Module TokenFacts.

Lemma digitsOnly_uint (d : Decimal.uint) :
  digitsOnly (NilEmpty.string_of_uint d) = true.
Proof. induction d; simpl; auto. Qed.

Lemma digitsOnly_numberToString (n : Z) :
  0 <= n -> digitsOnly (JS.numberToString n) = true.
Proof.
  intros Hn. unfold JS.numberToString. destruct n as [|p|p]; [reflexivity| |lia].
  simpl. unfold NilZero.string_of_uint.
  destruct (Pos.to_uint p); try reflexivity; apply (digitsOnly_uint (_ _)).
Qed.

Lemma to_int_not_nil (n : Z) :
  Z.to_int n <> Decimal.Pos Decimal.Nil /\ Z.to_int n <> Decimal.Neg Decimal.Nil.
Proof.
  split; intros H; pose proof (DecimalZ.of_to n) as Hn;
    rewrite H in Hn; simpl in Hn; subst n; discriminate H.
Qed.

Lemma numberToString_inj (n m : Z) :
  JS.numberToString n = JS.numberToString m -> n = m.
Proof.
  unfold JS.numberToString. intros H.
  apply DecimalZ.to_int_inj.
  pose proof (NilZero.isi (Z.to_int n) (proj1 (to_int_not_nil n)) (proj2 (to_int_not_nil n))) as Hn.
  pose proof (NilZero.isi (Z.to_int m) (proj1 (to_int_not_nil m)) (proj2 (to_int_not_nil m))) as Hm.
  rewrite H in Hn. congruence.
Qed.

(** A run of digits in front of a dash is determined by the whole string. *)
Lemma digits_dash_inj (d1 d2 r1 r2 : string) :
  digitsOnly d1 = true -> digitsOnly d2 = true ->
  d1 ++ String "-" r1 = d2 ++ String "-" r2 -> d1 = d2 /\ r1 = r2.
Proof.
  revert d2. induction d1 as [|c d1 IH]; intros [|c2 d2] H1 H2 H; simpl in *.
  - injection H as H. split; [reflexivity | exact H].
  - injection H as Hc _. subst c2. discriminate H2.
  - injection H as Hc _. subst c. discriminate H1.
  - injection H as Hc H. subst c2.
    apply andb_true_iff in H1, H2.
    destruct (IH d2 (proj2 H1) (proj2 H2) H) as [-> ->]. split; reflexivity.
Qed.

Lemma seatTokenId_inj (n m : Z) (r r' : string) :
  0 <= n -> 0 <= m ->
  BookingConfirmation.seatTokenId n r = BookingConfirmation.seatTokenId m r' ->
  n = m /\ BookingConfirmation.nonce r = BookingConfirmation.nonce r'.
Proof.
  intros Hn Hm H. unfold BookingConfirmation.seatTokenId in H.
  cbn [append] in H. injection H as H.
  apply digits_dash_inj in H;
    [| now apply digitsOnly_numberToString | now apply digitsOnly_numberToString].
  destruct H as [Hd Hr]. split; [now apply numberToString_inj | exact Hr].
Qed.

End TokenFacts.

(** C6 (amended): the seat-token identifier is SEAT- followed by the clock
    reading taken when the token is rendered, a dash and the upper-cased
    nonce cut from a random base-36 string. It is a deterministic function
    of that clock reading and the nonce, and both can be read back from it.
    The booking reference is BK- followed by the clock reading taken at the
    start of the render; it is not an input of the token identifier. *)
Theorem seatTokenId_from_clock_and_nonce :
  forall (data : CheckoutPage.BookingData) (env env' : BookingConfirmation.Env),
    0 <= BookingConfirmation.now2 env ->
    0 <= BookingConfirmation.now2 env' ->
    BookingConfirmation.view_seatTokenId (BookingConfirmation.render data env) =
      "SEAT-" ++ JS.numberToString (BookingConfirmation.now2 env) ++ "-" ++
      JS.toUpperCase (JS.substr 2 9 (BookingConfirmation.random36 env)) /\
    BookingConfirmation.view_bookingId (BookingConfirmation.render data env) =
      "BK-" ++ JS.numberToString (BookingConfirmation.now1 env) /\
    (BookingConfirmation.view_seatTokenId (BookingConfirmation.render data env) =
     BookingConfirmation.view_seatTokenId (BookingConfirmation.render data env') <->
     BookingConfirmation.now2 env = BookingConfirmation.now2 env' /\
     BookingConfirmation.nonce (BookingConfirmation.random36 env) =
     BookingConfirmation.nonce (BookingConfirmation.random36 env')).
Proof.
  intros data env env' Hn Hn'. split; [reflexivity|]. split; [reflexivity|].
  cbn [BookingConfirmation.render BookingConfirmation.view_seatTokenId]. split.
  - intros H. now apply TokenFacts.seatTokenId_inj.
  - intros [H1 H2]. unfold BookingConfirmation.seatTokenId. now rewrite H1, H2.
Qed.

Lemma seatTokenId_from_clock_and_nonce_witness :
  0 <= 1700000000123 /\
  BookingConfirmation.view_seatTokenId
    (BookingConfirmation.render (CheckoutPage.bookingData CheckoutPage.initialState)
       (BookingConfirmation.mkEnv 1700000000120 "2023-11-14T22:13:20.121Z"
          1700000000123 "0.k3j5x8q2m1z")) =
  "SEAT-1700000000123-K3J5X8Q2M".
Proof.
  split; [lia|].
  refine (eq_trans
    (proj1 (seatTokenId_from_clock_and_nonce
              (CheckoutPage.bookingData CheckoutPage.initialState)
              (BookingConfirmation.mkEnv 1700000000120 "2023-11-14T22:13:20.121Z"
                 1700000000123 "0.k3j5x8q2m1z")
              (BookingConfirmation.mkEnv 1700000000120 "2023-11-14T22:13:20.121Z"
                 1700000000123 "0.k3j5x8q2m1z") _ _)) _);
    [simpl; lia | simpl; lia | reflexivity].
Defined.

(** C6, as stated, fails: two renders with the same booking reference and
    the same nonce show different token identifiers when the clock ticks
    between the two readings; two renders with the same booking reference
    and different random draws show two tokens for one booking; and the
    booking reference does not occur in the token identifier. *)
Lemma token_of_booking_counterexample :
  let data := CheckoutPage.bookingData CheckoutPage.initialState in
  let v1 := BookingConfirmation.render data
              (BookingConfirmation.mkEnv 1700000000120 "2023-11-14T22:13:20.120Z"
                 1700000000120 "0.k3j5x8q2m1z") in
  let v2 := BookingConfirmation.render data
              (BookingConfirmation.mkEnv 1700000000120 "2023-11-14T22:13:20.120Z"
                 1700000000121 "0.k3j5x8q2m1z") in
  let v3 := BookingConfirmation.render data
              (BookingConfirmation.mkEnv 1700000000120 "2023-11-14T22:13:20.120Z"
                 1700000000120 "0.7fq0z1c9d4w") in
  BookingConfirmation.view_bookingId v1 = BookingConfirmation.view_bookingId v2 /\
  BookingConfirmation.view_seatTokenId v1 <> BookingConfirmation.view_seatTokenId v2 /\
  BookingConfirmation.view_bookingId v1 = BookingConfirmation.view_bookingId v3 /\
  BookingConfirmation.view_seatTokenId v1 <> BookingConfirmation.view_seatTokenId v3 /\
  JS.includes (BookingConfirmation.view_seatTokenId v1)
    (BookingConfirmation.view_bookingId v1) = false.
Proof.
  cbv zeta. split; [reflexivity|]. split; [vm_compute; discriminate|].
  split; [reflexivity|]. split; [vm_compute; discriminate | reflexivity].
Qed.

(** ** Token redemption *)

Module RedeemFacts.
Import BookingVerification.

Lemma store_same (tokens : Storage) (tokenId : string) (v : BookingToken) :
  store tokens tokenId v tokenId = v.
Proof. unfold store. now rewrite String.eqb_refl. Qed.

(** What [verifyToken] reports for a valid token *)
Lemma valid_inv (env : Env) (tokenId : string) (tokens : Storage) (ts : Z) :
  verifyToken env tokenId tokens = Some (true, true, false, ts) ->
  0 < timestamp (tokens tokenId) /\
  redeemed (tokens tokenId) = false /\
  timestamp (tokens tokenId) <= block_timestamp env /\
  block_timestamp env - timestamp (tokens tokenId) < 86400.
Proof.
  unfold verifyToken.
  destruct (0 <? timestamp (tokens tokenId)) eqn:He;
    destruct (redeemed (tokens tokenId)) eqn:Hr;
    destruct (block_timestamp env <? timestamp (tokens tokenId)) eqn:Hu;
    cbn [andb negb]; try discriminate.
  intros H. injection H as Hv _.
  apply Z.ltb_lt in He, Hv. apply Z.ltb_ge in Hu. repeat split; assumption.
Qed.

Lemma redeem_valid (env : Env) (tokenId : string) (tokens : Storage) (ts : Z) :
  verifyToken env tokenId tokens = Some (true, true, false, ts) ->
  redeemToken env tokenId tokens =
  Returns true (store tokens tokenId (setRedeemed (tokens tokenId)))
    [TokenRedeemed tokenId (msg_sender env)].
Proof.
  intros H. apply valid_inv in H. destruct H as (He & Hr & Hu & Hv).
  unfold redeemToken. rewrite Hr.
  apply Z.ltb_lt in He, Hv. apply Z.ltb_ge in Hu. now rewrite He, Hu, Hv.
Qed.

Lemma redeem_redeemed (env : Env) (tokenId : string) (tokens : Storage) :
  0 < timestamp (tokens tokenId) ->
  redeemed (tokens tokenId) = true ->
  redeemToken env tokenId tokens = Reverts "Token already redeemed".
Proof.
  intros He Hr. unfold redeemToken. apply Z.ltb_lt in He. now rewrite He, Hr.
Qed.

(** Once the token is redeemed every later call reverts and the storage
    stays as it is. *)
Lemma redeemAll_redeemed (tokenId : string) (schedule : list Env) (tokens : Storage) :
  0 < timestamp (tokens tokenId) ->
  redeemed (tokens tokenId) = true ->
  redeemAll tokenId schedule tokens =
  (map (fun _ => Reverts "Token already redeemed") schedule, tokens).
Proof.
  intros He Hr. induction schedule as [|env rest IH]; [reflexivity|].
  cbn [redeemAll map]. rewrite (redeem_redeemed env _ _ He Hr).
  cbn [commit]. now rewrite IH.
Qed.

Lemma count_reverts (p : Outcome -> bool) (o : Outcome) (schedule : list Env) :
  count p (map (fun _ => o) schedule) =
  if p o then List.length schedule else 0%nat.
Proof.
  unfold count. induction schedule as [|env rest IH]; simpl.
  - now destruct (p o).
  - destruct (p o) eqn:Hp; simpl; now rewrite IH.
Qed.

End RedeemFacts.

(** C9: the contract runs each transaction to its end before the next, so N
    concurrent redemptions of one token take effect as N calls in the order
    of their inclusion. For a token that is valid when the calls are made
    and for every such order, exactly one call succeeds, the first one, and
    each of the other N-1 reverts with "Token already redeemed"; the token
    ends redeemed. *)
Theorem redeem_exactly_once :
  forall (tokens : BookingVerification.Storage) (tokenId : string)
         (calls schedule : list BookingVerification.Env),
    calls <> [] ->
    (forall env, In env calls ->
       exists ts, BookingVerification.verifyToken env tokenId tokens =
                  Some (true, true, false, ts)) ->
    Permutation calls schedule ->
    BookingVerification.count BookingVerification.succeeded
      (fst (BookingVerification.redeemAll tokenId schedule tokens)) = 1%nat /\
    BookingVerification.count BookingVerification.alreadyRedeemed
      (fst (BookingVerification.redeemAll tokenId schedule tokens)) =
      (List.length calls - 1)%nat /\
    List.length (fst (BookingVerification.redeemAll tokenId schedule tokens)) =
      List.length calls /\
    (exists first rest,
        schedule = first :: rest /\
        fst (BookingVerification.redeemAll tokenId schedule tokens) =
        BookingVerification.Returns true
          (BookingVerification.store tokens tokenId
             (BookingVerification.setRedeemed (tokens tokenId)))
          [BookingVerification.TokenRedeemed tokenId (BookingVerification.msg_sender first)]
        :: map (fun _ => BookingVerification.Reverts "Token already redeemed") rest) /\
    BookingVerification.redeemed
      (snd (BookingVerification.redeemAll tokenId schedule tokens) tokenId) = true.
Proof.
  intros tokens tokenId calls schedule Hne Hvalid Hperm.
  destruct schedule as [|first rest].
  - apply Permutation_sym, Permutation_nil in Hperm. contradiction.
  - assert (Hfirst : In first calls).
    { eapply Permutation_in; [apply Permutation_sym, Hperm | left; reflexivity]. }
    destruct (Hvalid first Hfirst) as [ts Hts].
    pose proof (RedeemFacts.valid_inv _ _ _ _ Hts) as (He & _ & _ & _).
    cbn [BookingVerification.redeemAll].
    rewrite (RedeemFacts.redeem_valid _ _ _ _ Hts).
    cbn [BookingVerification.commit].
    rewrite RedeemFacts.redeemAll_redeemed;
      [| rewrite RedeemFacts.store_same; exact He
       | rewrite RedeemFacts.store_same; reflexivity ].
    cbn [fst snd].
    rewrite (Permutation_length Hperm).
    unfold BookingVerification.count at 1 2.
    cbn [filter BookingVerification.succeeded BookingVerification.alreadyRedeemed List.length].
    fold (BookingVerification.count BookingVerification.succeeded
            (map (fun _ => BookingVerification.Reverts "Token already redeemed") rest)).
    fold (BookingVerification.count BookingVerification.alreadyRedeemed
            (map (fun _ => BookingVerification.Reverts "Token already redeemed") rest)).
    rewrite !RedeemFacts.count_reverts. cbn.
    rewrite length_map, RedeemFacts.store_same.
    repeat split; try lia.
    exists first, rest. split; reflexivity.
Qed.

Lemma redeem_exactly_once_witness :
  BookingVerification.count BookingVerification.succeeded
    (fst (BookingVerification.redeemAll "SEAT-abc12345-def67890"
            (rev sampleCalls) sampleStorage)) = 1%nat /\
  BookingVerification.count BookingVerification.alreadyRedeemed
    (fst (BookingVerification.redeemAll "SEAT-abc12345-def67890"
            (rev sampleCalls) sampleStorage)) = 2%nat.
Proof.
  assert (H := redeem_exactly_once sampleStorage "SEAT-abc12345-def67890"
                 sampleCalls (rev sampleCalls)).
  destruct H as (H1 & H2 & _).
  - discriminate.
  - intros env [<-|[<-|[<-|[]]]]; exists 1699123456; reflexivity.
  - apply Permutation_rev.
  - split; [exact H1 | exact H2].
Defined.

(** ** Instances *)

Lemma handleSearch_deterministic_witness :
  RiderDashboard.searchResults
    (RiderDashboard.handleSearch (SearchParams.mk "Ogba" "VI" "06:00-08:00")
       RiderDashboard.initialState) =
  RiderDashboard.searchResults
    (RiderDashboard.handleSearch (SearchParams.mk "Ogba" "VI" "06:00-08:00")
       (RiderDashboard.handleBooking "1" 2 1700000000000
          (RiderDashboard.handleSearch (SearchParams.mk "Ikeja" "Lekki" "07:00-09:00")
             RiderDashboard.initialState))).
Proof.
  apply (handleSearch_deterministic
           (SearchParams.mk "Ogba" "VI" "06:00-08:00")
           (SearchParams.mk "Ogba" "VI" "06:00-08:00")
           RiderDashboard.initialState
           (RiderDashboard.handleBooking "1" 2 1700000000000
              (RiderDashboard.handleSearch (SearchParams.mk "Ikeja" "Lekki" "07:00-09:00")
                 RiderDashboard.initialState)));
    reflexivity.
Defined.

Lemma search_matches_by_substring_witness :
  ciSubstring "og" "Ogba" /\ ciSubstring "v" "VI".
Proof.
  apply (search_matches_by_substring RiderDashboard.initialState
           (SearchParams.mk "og" "v" "06:00-08:00")
           (Route.mk "1" "Chidi O." (49 # 10) "" "Silver Honda Civic" "Ogba" "VI"
              ["Berger"; "Ketu"] "6:30 AM" 3 1500 95 2)).
  - discriminate.
  - discriminate.
  - simpl. left. reflexivity.
Defined.

Example search_ogba_vi :
  map Route.id (RiderDashboard.search allRoutes (SearchParams.mk "Ogba" "VI" "06:00-08:00"))
  = ["1"].
Proof. reflexivity. Qed.

Example search_all_by_score :
  map Route.id (RiderDashboard.search allRoutes (SearchParams.mk "" "" "06:00-08:00"))
  = ["4"; "1"; "3"; "2"].
Proof. reflexivity. Qed.

Example search_seven_to_nine :
  map Route.id (RiderDashboard.search allRoutes (SearchParams.mk "" "" "07:00-09:00"))
  = ["4"; "2"].
Proof. reflexivity. Qed.

Example search_without_window :
  RiderDashboard.search allRoutes (SearchParams.mk "Ogba" "VI" "morning") = [].
Proof. reflexivity. Qed.

Example parseInt_examples :
  JS.parseInt "06" = Some 6 /\ JS.parseInt "  -12px" = Some (-12) /\
  JS.parseInt "0x1f" = Some 31 /\ JS.parseInt " AM" = None /\ JS.parseInt "" = None.
Proof. repeat split. Qed.

Example split_examples :
  JS.split ":" "6:30 AM" = ["6"; "30 AM"] /\ JS.split "-" "06:00-08:00" = ["06:00"; "08:00"] /\
  JS.split ":" "" = [""] /\ JS.split "-" "a--b" = ["a"; ""; "b"].
Proof. repeat split. Qed.

Example numberToString_examples :
  JS.numberToString 0 = "0" /\ JS.numberToString 1700000000000 = "1700000000000" /\
  JS.numberToString (-5) = "-5".
Proof. repeat split. Qed.

Example selector_on_empty_route :
  BookingModal.seatsAfter
    (Route.mk "9" "Kemi A." (40 # 10) "" "Red Kia" "Yaba" "VI" [] "6:30 AM" 0 1000 80 4)
    [BookingModal.Plus] = 0.
Proof. reflexivity. Qed.

(** Without payment parameters a payment ends in the error step and the page
    keeps its step. *)
Example checkout_without_params :
  forall gateway,
    InterswitchModal.handlePayment
      (InterswitchModal.mountedProps payingPage) "https://openride.ng" gateway
      (loadedModal, payingPage) =
    (InterswitchModal.mkState InterswitchModal.error false true
       "Payment parameters not available. Please try again.",
     payingPage).
Proof. reflexivity. Qed.
(** ** Further properties of the search *)

Module SearchMore.
Import RiderDashboard.

Lemma matches_intro (p : SearchParams.t) (route : Route.t) (h lo hi : Z) :
  JS.includes (JS.toLowerCase (Route.from route)) (JS.toLowerCase (SearchParams.from p)) = true ->
  JS.includes (JS.toLowerCase (Route.to route)) (JS.toLowerCase (SearchParams.to p)) = true ->
  hourOf (Route.departureTime route) = Some h ->
  nth_error (map hourOf (JS.split "-" (SearchParams.timeRange p))) 0 = Some (Some lo) ->
  nth_error (map hourOf (JS.split "-" (SearchParams.timeRange p))) 1 = Some (Some hi) ->
  lo <= h <= hi ->
  0 < Route.availableSeats route ->
  matches p route = true.
Proof.
  intros Hf Ht Hh Hlo Hhi Hb Hs. unfold matches.
  rewrite Hf, Ht, Hh, Hlo, Hhi. simpl.
  destruct Hb as [H1 H2]. apply Z.leb_le in H1, H2. apply Z.ltb_lt in Hs.
  now rewrite H1, H2, Hs.
Qed.

Lemma filter_id {A : Type} (f : A -> bool) (l : list A) :
  (forall x, In x l -> f x = true) -> filter f l = l.
Proof.
  induction l as [|x l IH]; intros H; [reflexivity|]. simpl.
  rewrite (H x (or_introl eq_refl)). f_equal. apply IH. intros y Hy. apply H. now right.
Qed.

(** Sorting a list that is in order gives the list back. *)
Lemma sort_sorted_id {A : Type} (cmp : A -> A -> Z) (l : list A) :
  StronglySorted (fun x y => cmp x y <= 0) l -> JS.sort cmp l = l.
Proof.
  induction 1 as [|x l Hs IH Hall]; [reflexivity|].
  cbn [JS.sort fold_right]. fold (JS.sort cmp l). rewrite IH.
  destruct l as [|y l']; [reflexivity|].
  cbn [JS.insert]. inversion Hall as [|? ? Hxy _]; subst.
  apply Z.leb_le in Hxy. now rewrite Hxy.
Qed.

Lemma byScore_sorted (l : list Route.t) :
  StronglySorted (fun x y => byScore x y <= 0) (JS.sort byScore l).
Proof.
  apply (JSFacts.sort_sorted byScore); unfold byScore; intros; lia.
Qed.

Lemma includes_char (c sep : ascii) (s : string) :
  JS.includes (String c s) (String sep EmptyString) =
  Ascii.eqb c sep || JS.includes s (String sep EmptyString).
Proof.
  cbn [JS.includes String.prefix]. f_equal.
  destruct (ascii_dec sep c) as [->|Hne].
  - rewrite Ascii.eqb_refl. now destruct s.
  - symmetry. apply Ascii.eqb_neq. congruence.
Qed.

Lemma split_not_nil (sep : ascii) (s : string) : JS.split sep s <> [].
Proof.
  induction s as [|c s IH]; simpl; [discriminate|].
  destruct (Ascii.eqb c sep); [discriminate|].
  destruct (JS.split sep s); [contradiction | discriminate].
Qed.

(** Without the separator the string is the only piece. *)
Lemma split_single (sep : ascii) (s : string) :
  JS.includes s (String sep EmptyString) = false -> JS.split sep s = [s].
Proof.
  induction s as [|c s IH]; [reflexivity|].
  rewrite includes_char. intros H. apply orb_false_iff in H. destruct H as [Hc Hs].
  simpl. rewrite Hc, (IH Hs). reflexivity.
Qed.

(** With the separator there are at least two pieces. *)
Lemma split_two (sep : ascii) (s : string) :
  JS.includes s (String sep EmptyString) = true ->
  exists a b rest, JS.split sep s = a :: b :: rest.
Proof.
  induction s as [|c s IH]; [discriminate|].
  rewrite includes_char. intros H. simpl.
  destruct (Ascii.eqb c sep) eqn:Hc.
  - pose proof (split_not_nil sep s) as Hn.
    destruct (JS.split sep s) as [|b rest]; [contradiction|].
    exists EmptyString, b, rest. reflexivity.
  - simpl in H. destruct (IH H) as (a & b & rest & ->).
    exists (String c a), b, rest. reflexivity.
Qed.

End SearchMore.

(** X1: a route is in the result of a search exactly when it is in the route
    table, the query's origin and destination occur in its origin and
    destination up to case, the hour of its departure lies between the
    hours of the two bounds of the time range, and it has a seat left. *)
Theorem search_returns_exactly_matches :
  forall (table : list Route.t) (p : SearchParams.t) (route : Route.t),
    In route (RiderDashboard.search table p) <->
    In route table /\
    ciSubstring (SearchParams.from p) (Route.from route) /\
    ciSubstring (SearchParams.to p) (Route.to route) /\
    (exists h lo hi,
        RiderDashboard.hourOf (Route.departureTime route) = Some h /\
        nth_error (map RiderDashboard.hourOf (JS.split "-" (SearchParams.timeRange p))) 0
          = Some (Some lo) /\
        nth_error (map RiderDashboard.hourOf (JS.split "-" (SearchParams.timeRange p))) 1
          = Some (Some hi) /\
        lo <= h <= hi) /\
    0 < Route.availableSeats route.
Proof.
  intros table p route. rewrite SearchFacts.search_In. split.
  - intros [Hin Hm]. split; [exact Hin|].
    destruct (SearchFacts.matches_split _ _ Hm) as (Hf & Ht & Hs).
    repeat split; try (apply includes_ciSubstring; assumption); try exact Hs.
    apply SearchFacts.matches_hours, Hm.
  - intros (Hin & Hf & Ht & (h & lo & hi & Hh & Hlo & Hhi & Hb) & Hs).
    split; [exact Hin|].
    apply includes_ciSubstring in Hf, Ht.
    eapply SearchMore.matches_intro; eassumption.
Qed.

(** X2: searching again within the result of a search, with the same query,
    gives the same list in the same order. *)
Theorem search_idempotent :
  forall (table : list Route.t) (p : SearchParams.t),
    RiderDashboard.search (RiderDashboard.search table p) p = RiderDashboard.search table p.
Proof.
  intros table p. unfold RiderDashboard.search at 1.
  rewrite SearchMore.filter_id.
  - apply SearchMore.sort_sorted_id, SearchMore.byScore_sorted.
  - intros x Hx. apply SearchFacts.search_In in Hx. apply Hx.
Qed.

(** X3: a time range without a dash has no second bound, and the search
    returns nothing for it, whatever the routes are. *)
Theorem search_without_dash_is_empty :
  forall (table : list Route.t) (p : SearchParams.t),
    JS.includes (SearchParams.timeRange p) "-" = false ->
    RiderDashboard.search table p = [].
Proof.
  intros table p Hno. unfold RiderDashboard.search.
  assert (Hf : filter (RiderDashboard.matches p) table = []).
  { induction table as [|r table IH]; [reflexivity|]. simpl. rewrite IH.
    unfold RiderDashboard.matches. rewrite (SearchMore.split_single _ _ Hno). simpl.
    destruct (RiderDashboard.hourOf (Route.departureTime r)); simpl;
      now rewrite !andb_false_r. }
  now rewrite Hf.
Qed.

Lemma search_without_dash_is_empty_witness :
  JS.includes "morning" "-" = false /\
  RiderDashboard.search allRoutes (SearchParams.mk "Ogba" "VI" "morning") = [].
Proof.
  split; [reflexivity|].
  apply (search_without_dash_is_empty allRoutes (SearchParams.mk "Ogba" "VI" "morning")).
  reflexivity.
Defined.

Module SearchFormFacts.
Import SearchForm.

Lemma existsb_eqb_In (x : string) (l : list string) :
  existsb (String.eqb x) l = true -> In x l.
Proof.
  intros H. apply existsb_exists in H. destruct H as (y & Hy & He).
  apply String.eqb_eq in He. now subst.
Qed.

Lemma step_wellFormed (s : State) (e : Event) :
  formWellFormed s -> formWellFormed (fst (step s e)).
Proof.
  intros (Hf & Ht & Hr). unfold step.
  destruct (offered s e) eqn:Ho; [|repeat split; assumption].
  destruct e; cbn [fst offered] in *; unfold formWellFormed;
    cbn [formData setFrom setTo setTimeRange
         SearchParams.from SearchParams.to SearchParams.timeRange];
    repeat split; try assumption.
  - apply andb_true_iff in Ho. right. apply existsb_eqb_In, Ho.
  - apply andb_true_iff in Ho. right. apply existsb_eqb_In, Ho.
  - apply existsb_eqb_In, Ho.
Qed.

Lemma step_query (s : State) (e : Event) (q : SearchParams.t) :
  formWellFormed s -> snd (step s e) = Some q ->
  In (SearchParams.from q) locations /\ In (SearchParams.to q) locations /\
  In (SearchParams.timeRange q) timeRanges.
Proof.
  intros (Hf & Ht & Hr). unfold step.
  destruct (offered s e); [|discriminate].
  destruct e; try discriminate. cbn [snd]. unfold handleSearch, truthy.
  destruct (String.eqb_spec (SearchParams.from (formData s)) "") as [E1|N1];
    [discriminate|].
  destruct (String.eqb_spec (SearchParams.to (formData s)) "") as [E2|N2];
    [discriminate|].
  simpl. intros [= <-]. repeat split; tauto.
Qed.

Lemma submitted_wellFormed (events : list Event) :
  forall (s : State) (q : SearchParams.t),
    formWellFormed s -> In q (submitted s events) ->
    In (SearchParams.from q) locations /\ In (SearchParams.to q) locations /\
    In (SearchParams.timeRange q) timeRanges.
Proof.
  induction events as [|e rest IH]; intros s q Hw Hin; [contradiction|].
  cbn [submitted] in Hin.
  pose proof (step_wellFormed s e Hw) as Hw'.
  pose proof (step_query s e) as Hq.
  destruct (step s e) as [s' [p|]]; cbn [fst snd] in *.
  - destruct Hin as [<-|Hin]; [now apply Hq | now apply (IH s')].
  - now apply (IH s').
Qed.

End SearchFormFacts.

(** X4: whatever the user does with the search form, every query it hands to
    the search has an origin and a destination taken from the list of
    locations, so neither is empty, and a time range taken from the options
    of the select, whose two bounds parse to hours with the first not after
    the second. *)
Theorem form_submits_wellformed_queries :
  forall (events : list SearchForm.Event) (q : SearchParams.t),
    In q (SearchForm.submitted SearchForm.initialState events) ->
    In (SearchParams.from q) SearchForm.locations /\
    In (SearchParams.to q) SearchForm.locations /\
    SearchParams.from q <> "" /\ SearchParams.to q <> "" /\
    exists lo hi,
      map RiderDashboard.hourOf (JS.split "-" (SearchParams.timeRange q)) =
        [Some lo; Some hi] /\
      lo <= hi.
Proof.
  intros events q Hin.
  assert (Hw : formWellFormed SearchForm.initialState).
  { unfold formWellFormed. simpl. auto. }
  destruct (SearchFormFacts.submitted_wellFormed events _ q Hw Hin) as (Hf & Ht & Hr).
  split; [exact Hf|]. split; [exact Ht|]. split; [|split].
  - intros E. rewrite E in Hf. simpl in Hf.
    repeat destruct Hf as [Hf|Hf]; try discriminate; contradiction.
  - intros E. rewrite E in Ht. simpl in Ht.
    repeat destruct Ht as [Ht|Ht]; try discriminate; contradiction.
  - simpl in Hr.
    destruct Hr as [<-|[<-|[<-|[<-|[]]]]];
      eexists; eexists; (split; [vm_compute; reflexivity | lia]).
Qed.

Lemma form_submits_wellformed_queries_witness :
  In "Ogba" SearchForm.locations /\ In "VI" SearchForm.locations.
Proof.
  destruct (form_submits_wellformed_queries
              [SearchForm.ToggleFrom; SearchForm.PickFrom "Ogba"; SearchForm.Submit;
               SearchForm.ToggleTo; SearchForm.PickTo "VI";
               SearchForm.ChangeTime "05:30-09:00"; SearchForm.Submit]
              (SearchParams.mk "Ogba" "VI" "05:30-09:00"))
    as (H1 & H2 & _).
  - simpl. left. reflexivity.
  - split; assumption.
Defined.

(** ** Further properties of booking *)

Module BookingMore.
Import RiderDashboard.

Lemma click_general (route : Route.t) (seats : Z) (c : BookingModal.Click) :
  Z.min 1 (Route.availableSeats route) <= seats <= Z.max 1 (Route.availableSeats route) ->
  Z.min 1 (Route.availableSeats route) <= BookingModal.click route seats c
    <= Z.max 1 (Route.availableSeats route).
Proof. intros H. destruct c; simpl; lia. Qed.

Lemma fold_click_general (route : Route.t) (clicks : list BookingModal.Click) :
  forall seats,
    Z.min 1 (Route.availableSeats route) <= seats <= Z.max 1 (Route.availableSeats route) ->
    Z.min 1 (Route.availableSeats route)
      <= fold_left (BookingModal.click route) clicks seats
      <= Z.max 1 (Route.availableSeats route).
Proof.
  induction clicks as [|c clicks IH]; intros seats Hs; simpl; [exact Hs|].
  apply IH, click_general, Hs.
Qed.

(** With distinct identifiers a route of the table is found under its own
    identifier. *)
Lemma findRoute_unique (table : list Route.t) (route : Route.t) :
  NoDup (map Route.id table) -> In route table ->
  findRoute table (Route.id route) = Some route.
Proof.
  unfold findRoute. induction table as [|r table IH]; intros Hnd Hin; [contradiction|].
  simpl in Hnd. inversion Hnd as [|? ? Hnotin Hnd']; subst. simpl.
  destruct Hin as [->|Hin].
  - now rewrite String.eqb_refl.
  - destruct (String.eqb_spec (Route.id r) (Route.id route)) as [E|_].
    + exfalso. apply Hnotin. rewrite E. now apply in_map.
    + now apply IH.
Qed.

Lemma findRoute_none (table : list Route.t) (routeId : string) :
  findRoute table routeId = None <->
  ~ exists r, In r table /\ Route.id r = routeId.
Proof.
  unfold findRoute. split.
  - intros H (r & Hin & Hid).
    apply (find_none _ _ H) in Hin. rewrite Hid, String.eqb_refl in Hin. discriminate.
  - intros H. destruct (find _ table) as [r|] eqn:Hf; [|reflexivity].
    exfalso. apply H. apply find_some in Hf. destruct Hf as [Hin He].
    apply String.eqb_eq in He. now exists r.
Qed.

Lemma findRoute_some (table : list Route.t) (routeId : string) (route : Route.t) :
  findRoute table routeId = Some route -> In route table /\ Route.id route = routeId.
Proof.
  unfold findRoute. intros H. apply find_some in H. destruct H as [Hin He].
  apply String.eqb_eq in He. now split.
Qed.

Lemma filter_none {A : Type} (f : A -> bool) (l : list A) :
  (forall x, In x l -> f x = false) -> filter f l = [].
Proof.
  induction l as [|x l IH]; intros H; [reflexivity|]. simpl.
  rewrite (H x (or_introl eq_refl)). apply IH. intros y Hy. apply H. now right.
Qed.

Lemma step_invariant (s : State) (e : DashboardEvents.Event) :
  routes (DashboardEvents.step s e) = routes s /\
  exists added,
    bookings (DashboardEvents.step s e) = (bookings s ++ added)%list /\
    Forall (createdBooking (routes s)) added /\
    (List.length added <= 1)%nat.
Proof.
  destruct e as [p|routeId seats now|tab]; cbn [DashboardEvents.step].
  - split; [reflexivity|]. exists []. rewrite app_nil_r. simpl. auto.
  - unfold handleBooking.
    destruct (findRoute (routes s) routeId) as [route|] eqn:Hf.
    + split; [reflexivity|]. exists [newBooking route routeId seats now].
      cbn [bookings]. split; [reflexivity|]. split; [|simpl; lia].
      constructor; [|constructor].
      apply findRoute_some in Hf. destruct Hf as [Hin Hid].
      split; [reflexivity|]. exists route. simpl. auto.
    + split; [reflexivity|]. exists []. rewrite app_nil_r. simpl. auto.
  - split; [reflexivity|]. exists []. rewrite app_nil_r. simpl. auto.
Qed.

Lemma run_invariant (events : list DashboardEvents.Event) :
  forall s : State,
    routes (DashboardEvents.run s events) = routes s /\
    exists added,
      bookings (DashboardEvents.run s events) = (bookings s ++ added)%list /\
      Forall (createdBooking (routes s)) added /\
      (List.length added <= List.length events)%nat.
Proof.
  unfold DashboardEvents.run.
  induction events as [|e rest IH]; intros s; cbn [fold_left].
  - split; [reflexivity|]. exists []. rewrite app_nil_r. simpl. auto.
  - destruct (step_invariant s e) as (Hr & a1 & Hb1 & Hc1 & Hl1).
    destruct (IH (DashboardEvents.step s e)) as (Hr' & a2 & Hb2 & Hc2 & Hl2).
    split; [now rewrite Hr', Hr|].
    exists (a1 ++ a2)%list. rewrite Hb2, Hb1, app_assoc. split; [reflexivity|].
    split.
    + apply Forall_app. split; [exact Hc1 | now rewrite <- Hr].
    + rewrite length_app. simpl. lia.
Qed.

End BookingMore.

(** X5: for every route and every sequence of clicks on the seat selector,
    the selected count stays between the smaller and the larger of 1 and the
    route's available seats; on a route without seats it can therefore fall
    to the availability, below 1. *)
Theorem selector_general_bounds :
  forall (route : Route.t) (clicks : list BookingModal.Click),
    Z.min 1 (Route.availableSeats route) <= BookingModal.seatsAfter route clicks
      <= Z.max 1 (Route.availableSeats route).
Proof.
  intros route clicks. apply BookingMore.fold_click_general.
  unfold BookingModal.initialSeats. lia.
Qed.

(** X6: for every route that a search returns and every sequence of clicks
    on the seat selector, the count handed to the booking lies between 1 and
    the route's available seats. *)
Theorem selector_within_availability_for_results :
  forall (table : list Route.t) (p : SearchParams.t) (route : Route.t)
         (clicks : list BookingModal.Click),
    In route (RiderDashboard.search table p) ->
    1 <= BookingModal.seatsAfter route clicks <= Route.availableSeats route.
Proof.
  intros table p route clicks Hin.
  apply SearchFacts.search_In in Hin. destruct Hin as [_ Hm].
  apply SearchFacts.matches_split in Hm. destruct Hm as (_ & _ & Hs).
  apply BookingFacts.fold_click_bounds; [lia|]. unfold BookingModal.initialSeats. lia.
Qed.

Lemma selector_within_availability_for_results_witness :
  1 <= BookingModal.seatsAfter
         (Route.mk "4" "Ngozi M." (50 # 10) "" "White Mercedes Sedan" "Festac" "Marina"
            ["Ajah"; "Ikorodu"] "7:15 AM" 2 1800 96 2)
         [BookingModal.Plus; BookingModal.Plus; BookingModal.Plus] <= 2.
Proof.
  apply (selector_within_availability_for_results allRoutes
           (SearchParams.mk "fest" "mar" "07:00-09:00")
           (Route.mk "4" "Ngozi M." (50 # 10) "" "White Mercedes Sedan" "Festac" "Marina"
              ["Ajah"; "Ikorodu"] "7:15 AM" 2 1800 96 2)
           [BookingModal.Plus; BookingModal.Plus; BookingModal.Plus]).
  simpl. left. reflexivity.
Defined.

(** X7: when the identifiers of the route table are distinct, confirming the
    booking modal for a route of the table records a booking for that very
    route, and its total price is the total shown in the modal. *)
Theorem confirm_books_selected_route :
  forall (s : RiderDashboard.State) (route : Route.t)
         (clicks : list BookingModal.Click) (now : Z),
    NoDup (map Route.id (RiderDashboard.routes s)) ->
    In route (RiderDashboard.routes s) ->
    exists b,
      RiderDashboard.bookings (BookingModal.confirm route clicks now s) =
        (RiderDashboard.bookings s ++ [b])%list /\
      Booking.routeId b = Route.id route /\
      Booking.from b = Route.from route /\ Booking.to b = Route.to route /\
      Booking.driverName b = Route.driverName route /\
      Booking.departureTime b = Route.departureTime route /\
      Booking.seats b = BookingModal.seatsAfter route clicks /\
      Booking.totalPrice b =
        RouteCard.modalTotal route (BookingModal.seatsAfter route clicks).
Proof.
  intros s route clicks now Hnd Hin.
  exists (RiderDashboard.newBooking route (Route.id route)
            (BookingModal.seatsAfter route clicks) now).
  unfold BookingModal.confirm.
  rewrite (BookingFacts.handleBooking_found _ _ _ _ _
             (BookingMore.findRoute_unique _ _ Hnd Hin)).
  simpl. repeat split.
Qed.

Lemma confirm_books_selected_route_witness :
  exists b,
    RiderDashboard.bookings
      (BookingModal.confirm
         (Route.mk "3" "Tunde A." (47 # 10) "" "Blue Hyundai Elantra" "Surulere" "CMS"
            ["Yaba"; "Oshodi"] "6:45 AM" 4 1200 92 0)
         [BookingModal.Plus; BookingModal.Plus] 1700000000000 RiderDashboard.initialState) =
      (RiderDashboard.bookings RiderDashboard.initialState ++ [b])%list /\
    Booking.totalPrice b = 3600.
Proof.
  destruct (confirm_books_selected_route RiderDashboard.initialState
              (Route.mk "3" "Tunde A." (47 # 10) "" "Blue Hyundai Elantra" "Surulere" "CMS"
                 ["Yaba"; "Oshodi"] "6:45 AM" 4 1200 92 0)
              [BookingModal.Plus; BookingModal.Plus] 1700000000000)
    as (b & Hb & _ & _ & _ & _ & _ & _ & Hp).
  - simpl. repeat constructor; simpl; intuition discriminate.
  - simpl. right. right. left. reflexivity.
  - exists b. split; [exact Hb | exact Hp].
Defined.

(** With a repeated identifier the booking is made for the first route that
    carries it, not for the selected one. *)
Example confirm_with_repeated_identifier :
  map (fun b => (Booking.from b, Booking.totalPrice b))
    (RiderDashboard.bookings
       (BookingModal.confirm
          (Route.mk "1" "Amara K." (48 # 10) "" "Black Toyota Camry" "Ikeja" "Lekki"
             ["Obalende"] "7:00 AM" 2 2000 88 1)
          [] 1700000000000
          (RiderDashboard.mkState
             [ Route.mk "1" "Chidi O." (49 # 10) "" "Silver Honda Civic" "Ogba" "VI"
                 ["Berger"; "Ketu"] "6:30 AM" 3 1500 95 2;
               Route.mk "1" "Amara K." (48 # 10) "" "Black Toyota Camry" "Ikeja" "Lekki"
                 ["Obalende"] "7:00 AM" 2 2000 88 1 ]
             "search" [] false [])))
  = [("Ogba", 1500)].
Proof. reflexivity. Qed.

(** X8: booking creation leaves the whole page state as it was exactly when
    no route of the table has the requested identifier; no booking is added
    and the active tab does not change. *)
Theorem handleBooking_unknown_route :
  forall (routeId : string) (seats now : Z) (s : RiderDashboard.State),
    RiderDashboard.handleBooking routeId seats now s = s <->
    ~ exists r, In r (RiderDashboard.routes s) /\ Route.id r = routeId.
Proof.
  intros routeId seats now s. rewrite <- BookingMore.findRoute_none.
  unfold RiderDashboard.handleBooking.
  destruct (RiderDashboard.findRoute (RiderDashboard.routes s) routeId) as [route|].
  - split; [|discriminate]. intros H.
    apply (f_equal (fun st => List.length (RiderDashboard.bookings st))) in H.
    simpl in H. rewrite length_app in H. simpl in H. lia.
  - split; reflexivity.
Qed.

(** X9: along every sequence of searches, bookings and tab changes the route
    table stays as it was, the bookings already made stay in place and
    unchanged at the front of the list, at most one booking is added per
    event, and every added booking is confirmed, refers to a route of the
    table and has that route's origin, destination and price per seat times
    its seats as total price. *)
Theorem dashboard_run_invariant :
  forall (s : RiderDashboard.State) (events : list DashboardEvents.Event),
    RiderDashboard.routes (DashboardEvents.run s events) = RiderDashboard.routes s /\
    exists added,
      RiderDashboard.bookings (DashboardEvents.run s events) =
        (RiderDashboard.bookings s ++ added)%list /\
      (List.length added <= List.length events)%nat /\
      Forall
        (fun b =>
           Booking.status b = "Confirmed" /\
           exists route,
             In route (RiderDashboard.routes s) /\
             Route.id route = Booking.routeId b /\
             Booking.totalPrice b = Route.pricePerSeat route * Booking.seats b /\
             Booking.from b = Route.from route /\ Booking.to b = Route.to route)
        added.
Proof.
  intros s events.
  destruct (BookingMore.run_invariant events s) as (Hr & added & Hb & Hc & Hl).
  split; [exact Hr|]. exists added. repeat split; assumption.
Qed.

(** X10: two bookings get the same identifier exactly when they are created
    at the same clock reading, whatever their routes and seats are. *)
Theorem booking_ids_collide_iff_same_clock :
  forall (r r' : Route.t) (rid rid' : string) (seats seats' now now' : Z),
    Booking.id (RiderDashboard.newBooking r rid seats now) =
    Booking.id (RiderDashboard.newBooking r' rid' seats' now') <->
    now = now'.
Proof.
  intros. simpl. split.
  - intros H. injection H as H. now apply TokenFacts.numberToString_inj.
  - now intros ->.
Qed.

(** X11: if every booking of the page is confirmed and there is at least
    one, then after every sequence of searches, bookings and tab changes the
    bookings tab lists all bookings as upcoming trips, in the order of their
    creation, and never shows the empty notice or the past-trips section. *)
Theorem bookings_tab_lists_all_as_upcoming :
  forall (s : RiderDashboard.State) (events : list DashboardEvents.Event),
    Forall (fun b => Booking.status b = "Confirmed") (RiderDashboard.bookings s) ->
    RiderDashboard.bookings s <> [] ->
    MyBookings.render (RiderDashboard.bookings (DashboardEvents.run s events)) =
    MyBookings.Trips (RiderDashboard.bookings (DashboardEvents.run s events)) None.
Proof.
  intros s events Hall Hne.
  destruct (BookingMore.run_invariant events s) as (_ & added & Hb & Hc & _).
  assert (Hconf : forall b, In b (RiderDashboard.bookings (DashboardEvents.run s events)) ->
                            MyBookings.isConfirmed b = true).
  { intros b Hin. rewrite Hb in Hin. apply in_app_or in Hin.
    unfold MyBookings.isConfirmed. apply String.eqb_eq.
    destruct Hin as [Hin|Hin].
    - rewrite Forall_forall in Hall. now apply Hall.
    - rewrite Forall_forall in Hc. now apply (Hc b Hin). }
  unfold MyBookings.render.
  assert (Hlen : (List.length (RiderDashboard.bookings (DashboardEvents.run s events)) =? 0)%nat
                 = false).
  { apply Nat.eqb_neq. rewrite Hb, length_app.
    destruct (RiderDashboard.bookings s); [contradiction | simpl; lia]. }
  rewrite Hlen, (SearchMore.filter_id _ _ Hconf).
  assert (Hpast : filter (fun b => negb (MyBookings.isConfirmed b))
                    (RiderDashboard.bookings (DashboardEvents.run s events)) = []).
  { apply BookingMore.filter_none. intros b Hin. now rewrite (Hconf b Hin). }
  now rewrite Hpast.
Qed.

Lemma bookings_tab_lists_all_as_upcoming_witness :
  MyBookings.render
    (RiderDashboard.bookings
       (DashboardEvents.run RiderDashboard.initialState
          [DashboardEvents.Search (SearchParams.mk "Ogba" "VI" "06:00-08:00");
           DashboardEvents.Book "1" 2 1700000000000;
           DashboardEvents.Book "9" 1 1700000000100])) =
  MyBookings.Trips
    (RiderDashboard.bookings
       (DashboardEvents.run RiderDashboard.initialState
          [DashboardEvents.Search (SearchParams.mk "Ogba" "VI" "06:00-08:00");
           DashboardEvents.Book "1" 2 1700000000000;
           DashboardEvents.Book "9" 1 1700000000100])) None.
Proof.
  apply (bookings_tab_lists_all_as_upcoming RiderDashboard.initialState).
  - repeat constructor.
  - discriminate.
Defined.

(** X12: drawing the avatar of a result card throws exactly when the
    driver's name has no space in it; with a space both initials are read,
    each possibly missing. *)
Theorem initials_throw_iff_no_space :
  forall driverName : string,
    RouteCard.initials driverName = None <-> JS.includes driverName " " = false.
Proof.
  intros driverName. unfold RouteCard.initials. split.
  - intros H. destruct (JS.includes driverName " ") eqn:Hi; [|reflexivity].
    destruct (SearchMore.split_two " " driverName Hi) as (a & b & rest & E).
    rewrite E in H. discriminate.
  - intros H. now rewrite (SearchMore.split_single " " driverName H).
Qed.

(** ** Further properties of the payment *)

(** X13: with callbacks that record their calls, one run of the payment
    handler makes at most one call and never closes the modal; it calls the
    success callback exactly when the script is loaded, payment parameters
    are present and the gateway completes the request with code 00, and
    then with the transaction reference of the parameters. *)
Theorem payment_calls_onSuccess_iff_approved :
  forall (amount : Z) (bid : option string)
         (ppo : option InterswitchModal.PaymentParams.t) (withOnError : bool)
         (origin : string)
         (webpayCheckout : InterswitchModal.Request.t -> InterswitchModal.Checkout)
         (modal : InterswitchModal.State) (ref : string),
    (List.length
       (snd (InterswitchModal.handlePayment
               (ModalEvents.loggingProps amount bid ppo withOnError) origin webpayCheckout
               (modal, []))) <= 1)%nat /\
    ~ In ModalEvents.OnClose
        (snd (InterswitchModal.handlePayment
                (ModalEvents.loggingProps amount bid ppo withOnError) origin webpayCheckout
                (modal, []))) /\
    (snd (InterswitchModal.handlePayment
            (ModalEvents.loggingProps amount bid ppo withOnError) origin webpayCheckout
            (modal, [])) = [ModalEvents.OnSuccess ref] <->
     InterswitchModal.scriptLoaded modal = true /\
     exists pp response,
       ppo = Some pp /\
       webpayCheckout (InterswitchModal.interswitchRequest origin pp) =
         InterswitchModal.Completes response /\
       InterswitchModal.resp response = "00" /\
       ref = InterswitchModal.PaymentParams.txn_ref pp).
Proof.
  intros amount bid ppo withOnError origin webpayCheckout modal ref.
  unfold InterswitchModal.handlePayment.
  destruct (InterswitchModal.scriptLoaded modal) eqn:Hl; cbn [negb].
  2:{ simpl. split; [lia|]. split; [tauto|]. split; [discriminate|].
      intros [H _]; discriminate. }
  cbn [ModalEvents.loggingProps InterswitchModal.paymentParams].
  destruct ppo as [pp|].
  2:{ simpl. split; [lia|]. split; [tauto|]. split; [discriminate|].
      intros (_ & pp & r & H & _); discriminate. }
  destruct (webpayCheckout (InterswitchModal.interswitchRequest origin pp))
    as [|response|] eqn:Hgw.
  - unfold InterswitchModal.callOnError. destruct withOnError; simpl.
    + split; [lia|]. split; [intros [H|[]]; discriminate|].
      split; [discriminate|]. intros (_ & pp' & r & H & Hc & _).
      injection H as <-. congruence.
    + split; [lia|]. split; [tauto|].
      split; [discriminate|]. intros (_ & pp' & r & H & Hc & _).
      injection H as <-. congruence.
  - unfold InterswitchModal.paymentCallback.
    destruct (String.eqb_spec (InterswitchModal.resp response) "00") as [E|N].
    + simpl. split; [lia|]. split; [intros [H|[]]; discriminate|]. split.
      * intros H. injection H as <-. split; [reflexivity|].
        exists pp, response. repeat split; assumption.
      * intros (_ & pp' & r & H & Hc & _ & ->). injection H as <-. reflexivity.
    + unfold InterswitchModal.callOnError. destruct withOnError; simpl.
      * split; [lia|]. split; [intros [H|[]]; discriminate|].
        split; [discriminate|]. intros (_ & pp' & r & H & Hc & Hr & _).
        injection H as <-. rewrite Hgw in Hc. injection Hc as <-. contradiction.
      * split; [lia|]. split; [tauto|].
        split; [discriminate|]. intros (_ & pp' & r & H & Hc & Hr & _).
        injection H as <-. rewrite Hgw in Hc. injection Hc as <-. contradiction.
  - simpl. split; [lia|]. split; [tauto|]. split; [discriminate|].
    intros (_ & pp' & r & H & Hc & _). injection H as <-. congruence.
Qed.

Module FlowFacts.
Import CheckoutFlow.

Lemma settle_page (s : Sys) : page (settle s) = page s.
Proof. unfold settle. now destruct (inPayment s). Qed.

Lemma callback_page (bid : option string) (ppo : option InterswitchModal.PaymentParams.t)
    (params : InterswitchModal.PaymentParams.t)
    (response : InterswitchModal.Response) (s : Sys) (m : InterswitchModal.State) :
  snd (InterswitchModal.paymentCallback (props bid ppo s) params response (m, page s)) =
  if String.eqb (InterswitchModal.resp response) "00"
  then CheckoutPage.handlePaymentComplete (InterswitchModal.PaymentParams.txn_ref params) (page s)
  else page s.
Proof.
  unfold InterswitchModal.paymentCallback.
  now destruct (String.eqb (InterswitchModal.resp response) "00").
Qed.

Section Flow.
Context (bid : option string) (pp : option InterswitchModal.PaymentParams.t)
        (origin : string).

(** One event leads to the confirmation step only from the confirmation
    step or by an approval. *)
Lemma step_confirmation (s : Sys) (e : Event) :
  CheckoutPage.step (page (step bid pp origin s e)) = CheckoutPage.confirmation ->
  CheckoutPage.step (page s) = CheckoutPage.confirmation \/ approves pp origin e.
Proof.
  unfold step. destruct (offered bid pp s e) eqn:Ho; cbn [negb]; [|now left].
  destruct e as [| | |gw|response|response| |]; cbn [page].
  - simpl. discriminate.
  - now left.
  - now left.
  - rewrite settle_page. cbn [page]. unfold InterswitchModal.handlePayment.
    destruct (InterswitchModal.scriptLoaded (modal s)); cbn [negb snd]; [|now left].
    cbn [props InterswitchModal.checkoutProps InterswitchModal.paymentParams].
    destruct pp as [params|]; cbn [snd]; [|now left].
    destruct (gw (InterswitchModal.interswitchRequest origin params))
      as [|response|] eqn:Hgw; cbn [snd]; [now left| |now left].
    unfold InterswitchModal.paymentCallback.
    destruct (String.eqb_spec (InterswitchModal.resp response) "00") as [E|N];
      cbn [snd]; [|now left].
    intros _. right. cbn [approves]. rewrite Hgw. now exists response.
  - destruct pp as [params|]; [|now left].
    rewrite settle_page. cbn [page]. rewrite callback_page.
    destruct (String.eqb_spec (InterswitchModal.resp response) "00") as [E|N];
      [|now left].
    intros _. right. exact E.
  - destruct pp as [params|]; [|now left].
    rewrite settle_page. cbn [page]. rewrite callback_page.
    destruct (String.eqb_spec (InterswitchModal.resp response) "00") as [E|N];
      [|now left].
    intros _. right. exact E.
  - now left.
  - rewrite settle_page. simpl. discriminate.
Qed.

Lemma run_confirmation (events : list Event) :
  forall s : Sys,
    CheckoutPage.step (page (run bid pp origin s events)) = CheckoutPage.confirmation ->
    CheckoutPage.step (page s) = CheckoutPage.confirmation \/
    exists e, In e events /\ approves pp origin e.
Proof.
  unfold run. induction events as [|e rest IH]; intros s H; cbn [fold_left] in H.
  - now left.
  - destruct (IH _ H) as [Hc|(e' & Hin & Ha)].
    + destruct (step_confirmation s e Hc) as [Hs|Ha]; [now left|].
      right. exists e. split; [now left | exact Ha].
    + right. exists e'. split; [now right | exact Ha].
Qed.

Lemma step_bookingData (s : Sys) (e : Event) :
  CheckoutPage.bookingData (page (step bid pp origin s e)) =
  CheckoutPage.bookingData (page s).
Proof.
  unfold step. destruct (offered bid pp s e); cbn [negb]; [|reflexivity].
  destruct e as [| | |gw|response|response| |]; cbn [page].
  - reflexivity.
  - reflexivity.
  - reflexivity.
  - rewrite settle_page. cbn [page]. unfold InterswitchModal.handlePayment.
    destruct (InterswitchModal.scriptLoaded (modal s)); cbn [negb snd]; [|reflexivity].
    cbn [props InterswitchModal.checkoutProps InterswitchModal.paymentParams].
    destruct pp as [params|]; cbn [snd]; [|reflexivity].
    destruct (gw (InterswitchModal.interswitchRequest origin params))
      as [|response|]; cbn [snd]; try reflexivity.
    unfold InterswitchModal.paymentCallback.
    destruct (String.eqb (InterswitchModal.resp response) "00"); reflexivity.
  - destruct pp as [params|]; [|reflexivity].
    rewrite settle_page. cbn [page]. rewrite callback_page.
    now destruct (String.eqb (InterswitchModal.resp response) "00").
  - destruct pp as [params|]; [|reflexivity].
    rewrite settle_page. cbn [page]. rewrite callback_page.
    now destruct (String.eqb (InterswitchModal.resp response) "00").
  - reflexivity.
  - rewrite settle_page. reflexivity.
Qed.

Lemma run_bookingData (events : list Event) :
  forall s : Sys,
    CheckoutPage.bookingData (page (run bid pp origin s events)) =
    CheckoutPage.bookingData (page s).
Proof.
  unfold run. induction events as [|e rest IH]; intros s; cbn [fold_left]; [reflexivity|].
  now rewrite IH, step_bookingData.
Qed.

End Flow.

(** Without payment parameters no request reaches the gateway. *)
Lemma step_none_issued (bid : option string) (origin : string) (s : Sys) (e : Event) :
  issued s = false -> issuedEarlier s = false ->
  issued (step bid None origin s e) = false /\
  issuedEarlier (step bid None origin s e) = false.
Proof.
  intros Hi He. unfold step.
  destruct (offered bid None s e) eqn:Ho; cbn [negb]; [|now split].
  destruct e as [| | |gw|response|response| |]; cbn [issued issuedEarlier];
    try (now split).
  - cbn [offered] in Ho. unfold ModalEvents.payDisabled in Ho.
    cbn [props InterswitchModal.checkoutProps InterswitchModal.paymentParams] in Ho.
    rewrite orb_true_r, andb_false_r in Ho. discriminate.
  - unfold settle. destruct (inPayment _); cbn [issued issuedEarlier];
      rewrite ?Hi, ?He; now split.
Qed.

Lemma run_none_issued (bid : option string) (origin : string) (events : list Event) :
  forall s : Sys,
    issued s = false -> issuedEarlier s = false ->
    issued (run bid None origin s events) = false /\
    issuedEarlier (run bid None origin s events) = false.
Proof.
  unfold run. induction events as [|e rest IH]; intros s Hi He; cbn [fold_left];
    [now split|].
  destruct (step_none_issued bid origin s e Hi He) as [Hi' He']. now apply IH.
Qed.

End FlowFacts.

(** X14: whatever the user, the gateway script and the gateway do, the
    checkout reaches the confirmation step only if payment parameters were
    given and some payment request was answered with code 00, at once or
    later; the booking data shown on the page never change. *)
Theorem confirmation_requires_approval :
  forall (bid : option string) (pp : option InterswitchModal.PaymentParams.t)
         (origin : string) (events : list CheckoutFlow.Event),
    CheckoutPage.bookingData
      (CheckoutFlow.page (CheckoutFlow.run bid pp origin CheckoutFlow.initialSys events)) =
      CheckoutPage.bookingData CheckoutPage.initialState /\
    (CheckoutPage.step
       (CheckoutFlow.page (CheckoutFlow.run bid pp origin CheckoutFlow.initialSys events)) =
       CheckoutPage.confirmation ->
     pp <> None /\
     exists e, In e events /\ CheckoutFlow.approves pp origin e).
Proof.
  intros bid pp origin events. split.
  - apply FlowFacts.run_bookingData.
  - intros H. apply FlowFacts.run_confirmation in H.
    destruct H as [H|(e & Hin & Ha)]; [discriminate|].
    split.
    + intros ->. destruct e; exact Ha.
    + now exists e.
Qed.

(** X15: the checkout page as it mounts the modal, without payment
    parameters: whatever the user, the gateway script and the gateway do,
    no request is handed to the gateway and the confirmation step is never
    reached. *)
Theorem checkout_never_confirms_without_params :
  forall (origin : string) (events : list CheckoutFlow.Event),
    CheckoutPage.step
      (CheckoutFlow.page (CheckoutFlow.run None None origin CheckoutFlow.initialSys events))
      <> CheckoutPage.confirmation /\
    CheckoutFlow.issued
      (CheckoutFlow.run None None origin CheckoutFlow.initialSys events) = false /\
    CheckoutFlow.issuedEarlier
      (CheckoutFlow.run None None origin CheckoutFlow.initialSys events) = false.
Proof.
  intros origin events. split.
  - intros H. apply FlowFacts.run_confirmation in H.
    destruct H as [H|(e & _ & Ha)]; [discriminate|]. destruct e; exact Ha.
  - now apply FlowFacts.run_none_issued.
Qed.

Example checkout_confirms_with_params :
  CheckoutPage.step
    (CheckoutFlow.page
       (CheckoutFlow.run None (Some sampleParams) "https://openride.ng" CheckoutFlow.initialSys
          [CheckoutFlow.Proceed; CheckoutFlow.ScriptLoaded; CheckoutFlow.Pay declining;
           CheckoutFlow.Retry; CheckoutFlow.Pay approving])) =
  CheckoutPage.confirmation.
Proof. reflexivity. Qed.

(** ** Payment callback page *)

Module CallbackFacts.
Import PaymentCallback.

Lemma truthy_show (x : option string) : truthy x = true -> show x <> "" /\ x = Some (show x).
Proof. destruct x as [[|c v]|]; simpl; intros H; try discriminate. split; [discriminate|reflexivity]. Qed.

Lemma removeItem_other (st : Storage) (key k : string) :
  k <> key -> removeItem st key k = st k.
Proof. intros H. unfold removeItem. apply String.eqb_neq in H. now rewrite H. Qed.

Lemma removeItem_same (st : Storage) (key : string) : removeItem st key key = None.
Proof. unfold removeItem. now rewrite String.eqb_refl. Qed.

End CallbackFacts.

(** X16: the payment callback page asks the backend to verify a payment
    exactly when the address or the storage holds a non-empty transaction
    reference; the reference it sends is the one of the address when that is
    non-empty and the stored one otherwise, it is never empty, and the
    request is sent with the stored token, or the text null when there is
    none. *)
Theorem verifyPayment_request :
  forall (txnRef : option string) (st : PaymentCallback.Storage)
         (post : PaymentCallback.Request -> PaymentCallback.Reply),
    (PaymentCallback.request (PaymentCallback.verifyPayment txnRef st post) = None <->
     PaymentCallback.truthy txnRef = false /\
     PaymentCallback.truthy (st "pending_payment_ref") = false) /\
    (forall req,
        PaymentCallback.request (PaymentCallback.verifyPayment txnRef st post) = Some req ->
        PaymentCallback.transaction_ref req <> "" /\
        Some (PaymentCallback.transaction_ref req) =
          (if PaymentCallback.truthy txnRef then txnRef else st "pending_payment_ref") /\
        PaymentCallback.authorization req =
          "Bearer " ++ match st "token" with Some t => t | None => "null" end).
Proof.
  intros txnRef st post. unfold PaymentCallback.verifyPayment, PaymentCallback.getItem.
  destruct (PaymentCallback.truthy txnRef) eqn:Ht; cbn [negb andb].
  - split.
    + split; [|intros [H _]; discriminate].
      destruct (post _) as [d|m|]; [destruct (String.eqb _ _)| |]; discriminate.
    + intros req Hreq.
      assert (req = PaymentCallback.mkRequest (PaymentCallback.show txnRef)
                      ("Bearer " ++ PaymentCallback.show (st "token"))) as ->.
      { destruct (post _) as [d|m|]; [destruct (String.eqb _ _)| |];
          cbn [PaymentCallback.request] in Hreq; congruence. }
      cbn [PaymentCallback.transaction_ref PaymentCallback.authorization].
      destruct (CallbackFacts.truthy_show _ Ht) as [Hne He].
      repeat split; [exact Hne | now rewrite <- He].
  - destruct (PaymentCallback.truthy (st "pending_payment_ref")) eqn:Hs; cbn [negb].
    + split.
      * split; [|intros [_ H]; discriminate].
        destruct (post _) as [d|m|]; [destruct (String.eqb _ _)| |]; discriminate.
      * intros req Hreq.
        assert (req = PaymentCallback.mkRequest
                        (PaymentCallback.show (st "pending_payment_ref"))
                        ("Bearer " ++ PaymentCallback.show (st "token"))) as ->.
        { destruct (post _) as [d|m|]; [destruct (String.eqb _ _)| |];
            cbn [PaymentCallback.request] in Hreq; congruence. }
        cbn [PaymentCallback.transaction_ref PaymentCallback.authorization].
        destruct (CallbackFacts.truthy_show _ Hs) as [Hne He].
        repeat split; [exact Hne | now rewrite <- He].
    + split; [split; auto|]. intros req H. discriminate.
Qed.

(** X17: a run of the verification leaves the page in the verifying state
    exactly when a request was sent and the backend never answers it. It
    ends in success exactly when the backend answers the request with the
    status successful; then the two pending entries are removed from the
    storage and the page is redirected to the booking read from the storage
    before, or to /booking/null/success when none was stored. In every other
    case nothing is removed and nothing is redirected. Entries under other
    keys are never touched. *)
Theorem verifyPayment_outcome :
  forall (txnRef : option string) (st : PaymentCallback.Storage)
         (post : PaymentCallback.Request -> PaymentCallback.Reply),
    (PaymentCallback.status
       (PaymentCallback.state (PaymentCallback.verifyPayment txnRef st post))
       = PaymentCallback.verifying <->
     exists req,
       PaymentCallback.request (PaymentCallback.verifyPayment txnRef st post) = Some req /\
       post req = PaymentCallback.Pending) /\
    (PaymentCallback.status
       (PaymentCallback.state (PaymentCallback.verifyPayment txnRef st post))
       = PaymentCallback.success <->
     exists req data,
       PaymentCallback.request (PaymentCallback.verifyPayment txnRef st post) = Some req /\
       post req = PaymentCallback.Resolves data /\
       PaymentCallback.data_status data = "successful") /\
    (PaymentCallback.status
       (PaymentCallback.state (PaymentCallback.verifyPayment txnRef st post))
       = PaymentCallback.success ->
     PaymentCallback.storage (PaymentCallback.verifyPayment txnRef st post)
       "pending_payment_ref" = None /\
     PaymentCallback.storage (PaymentCallback.verifyPayment txnRef st post)
       "pending_booking_id" = None /\
     PaymentCallback.redirect (PaymentCallback.verifyPayment txnRef st post) =
       Some ("/booking/" ++
             match st "pending_booking_id" with Some b => b | None => "null" end ++
             "/success")) /\
    (PaymentCallback.status
       (PaymentCallback.state (PaymentCallback.verifyPayment txnRef st post))
       <> PaymentCallback.success ->
     PaymentCallback.storage (PaymentCallback.verifyPayment txnRef st post) = st /\
     PaymentCallback.redirect (PaymentCallback.verifyPayment txnRef st post) = None) /\
    (forall k,
        k <> "pending_payment_ref" -> k <> "pending_booking_id" ->
        PaymentCallback.storage (PaymentCallback.verifyPayment txnRef st post) k = st k).
Proof.
  intros txnRef st post. unfold PaymentCallback.verifyPayment, PaymentCallback.getItem.
  destruct (negb (PaymentCallback.truthy txnRef) &&
            negb (PaymentCallback.truthy (st "pending_payment_ref"))).
  { simpl. split; [split; [discriminate | intros (req & H & _); discriminate]|].
    split; [split; [discriminate | intros (req & d & H & _); discriminate]|].
    split; [discriminate|]. split; auto. }
  set (req := PaymentCallback.mkRequest _ _).
  destruct (post req) as [d|m|] eqn:Hp.
  - destruct (String.eqb_spec (PaymentCallback.data_status d) "successful") as [E|N]; simpl.
    + split.
      { split; [discriminate|]. intros (req' & H & Hp').
        injection H as <-. rewrite Hp in Hp'. discriminate. }
      split; [split; [intros _; exists req, d; auto | reflexivity]|].
      split; [intros _; split; [|split]; reflexivity|].
      split; [intros H; contradiction|].
      intros k Hk1 Hk2. now rewrite !CallbackFacts.removeItem_other.
    + split.
      { split; [discriminate|]. intros (req' & H & Hp').
        injection H as <-. rewrite Hp in Hp'. discriminate. }
      split.
      { split; [discriminate|]. intros (req' & d' & H & Hp' & Hs).
        injection H as <-. rewrite Hp in Hp'. injection Hp' as <-. contradiction. }
      split; [discriminate|]. split; auto.
  - simpl. split.
    { split; [discriminate|]. intros (req' & H & Hp').
      injection H as <-. rewrite Hp in Hp'. discriminate. }
    split.
    { split; [discriminate|]. intros (req' & d' & H & Hp' & _).
      injection H as <-. rewrite Hp in Hp'. discriminate. }
    split; [discriminate|]. split; auto.
  - simpl. split; [split; [intros _; exists req; auto | reflexivity]|].
    split.
    { split; [discriminate|]. intros (req' & d' & H & Hp' & _).
      injection H as <-. rewrite Hp in Hp'. discriminate. }
    split; [discriminate|]. split; auto.
Qed.

(** X18: after a verification that did not succeed, Try Again leads to the
    payment page of the pending booking whenever one is stored, because the
    storage was left alone; after a successful verification the pending
    booking is gone and Try Again would lead to the list of bookings. *)
Theorem retry_after_verification :
  forall (txnRef : option string) (st : PaymentCallback.Storage)
         (post : PaymentCallback.Request -> PaymentCallback.Reply),
    (PaymentCallback.status
       (PaymentCallback.state (PaymentCallback.verifyPayment txnRef st post))
       = PaymentCallback.success ->
     PaymentCallback.handleRetry
       (PaymentCallback.storage (PaymentCallback.verifyPayment txnRef st post)) =
     "/bookings") /\
    (PaymentCallback.status
       (PaymentCallback.state (PaymentCallback.verifyPayment txnRef st post))
       <> PaymentCallback.success ->
     forall bookingId,
       st "pending_booking_id" = Some bookingId -> bookingId <> "" ->
       PaymentCallback.handleRetry
         (PaymentCallback.storage (PaymentCallback.verifyPayment txnRef st post)) =
       "/payment/" ++ bookingId).
Proof.
  intros txnRef st post.
  assert (Hfail : forall s', s' = st -> forall bookingId,
             st "pending_booking_id" = Some bookingId -> bookingId <> "" ->
             PaymentCallback.handleRetry s' = "/payment/" ++ bookingId).
  { intros s' -> b Hb Hne. unfold PaymentCallback.handleRetry, PaymentCallback.getItem.
    rewrite Hb. destruct b; [contradiction | reflexivity]. }
  unfold PaymentCallback.verifyPayment, PaymentCallback.getItem.
  destruct (negb (PaymentCallback.truthy txnRef) &&
            negb (PaymentCallback.truthy (st "pending_payment_ref"))).
  { simpl. split; [discriminate|]. intros _. now apply Hfail. }
  destruct (post _) as [d|m|].
  - destruct (String.eqb (PaymentCallback.data_status d) "successful"); simpl.
    + split; [reflexivity | intros H; contradiction].
    + split; [discriminate|]. intros _. now apply Hfail.
  - simpl. split; [discriminate|]. intros _. now apply Hfail.
  - simpl. split; [discriminate|]. intros _. now apply Hfail.
Qed.

(** ** Further properties of the seat token and of the contract *)

Module NonceFacts.

Lemma substring_length (s : string) :
  forall n m : nat,
    String.length (String.substring n m s) = Nat.min m (String.length s - n).
Proof.
  induction s as [|c s IH]; intros [|n] [|m];
    cbn [String.substring String.length]; rewrite ?IH; lia.
Qed.

Lemma upperChar_not_lower (c : ascii) : JS.isLower (JS.upperChar c) = false.
Proof. destruct c as [[] [] [] [] [] [] [] []]; reflexivity. Qed.

Lemma mapChars_In (f : ascii -> ascii) (s : string) (c : ascii) :
  In c (list_ascii_of_string (JS.mapChars f s)) ->
  exists d, In d (list_ascii_of_string s) /\ c = f d.
Proof.
  induction s as [|d s IH]; simpl; [contradiction|].
  intros [<-|H].
  - exists d. auto.
  - destruct (IH H) as (d' & Hin & ->). exists d'. auto.
Qed.

End NonceFacts.

(** X19: the nonce of a seat token has as many characters as the random
    base-36 string has after its first two, nine at most, so it is shorter
    than nine, or empty, when that string is short; and it holds no
    lower-case letter. *)
Theorem nonce_length_and_case :
  forall random36 : string,
    String.length (BookingConfirmation.nonce random36) =
      Nat.min 9 (String.length random36 - 2) /\
    (forall c,
        In c (list_ascii_of_string (BookingConfirmation.nonce random36)) ->
        JS.isLower c = false).
Proof.
  intros random36. unfold BookingConfirmation.nonce, JS.toUpperCase, JS.substr. split.
  - now rewrite JSFacts.mapChars_length, NonceFacts.substring_length.
  - intros c Hc. apply NonceFacts.mapChars_In in Hc. destruct Hc as (d & _ & ->).
    apply NonceFacts.upperChar_not_lower.
Qed.

Example short_nonce :
  BookingConfirmation.seatTokenId 1700000000123 "0.i" = "SEAT-1700000000123-I" /\
  BookingConfirmation.seatTokenId 1700000000123 "0" = "SEAT-1700000000123-".
Proof. split; reflexivity. Qed.

Module ChainFacts.
Import BookingVerification.

Lemma store_other (tokens : Storage) (tokenId k : string) (v : BookingToken) :
  k <> tokenId -> store tokens tokenId v k = tokens k.
Proof. intros H. unfold store. apply String.eqb_neq in H. now rewrite H. Qed.

(** A transaction leaves a minted token as it is or marks it redeemed. *)
Lemma apply_token (tokens : Storage) (tx : Chain.Tx) (tokenId : string) :
  0 < timestamp (tokens tokenId) ->
  Chain.apply tokens tx tokenId = tokens tokenId \/
  (Chain.apply tokens tx tokenId = setRedeemed (tokens tokenId) /\
   Chain.redeemedOk tokenId (tx, Chain.exec tokens tx) = true /\
   redeemed (tokens tokenId) = false).
Proof.
  intros Hts. unfold Chain.apply.
  destruct tx as [env t bk rdr|env t]; cbn [Chain.exec].
  - unfold mintToken.
    destruct (String.eqb_spec t tokenId) as [->|Hne].
    + assert (H : (timestamp (tokens tokenId) =? 0) = false) by (apply Z.eqb_neq; lia).
      rewrite H. now left.
    + destruct (negb _); cbn [commit]; [now left|].
      left. apply store_other. congruence.
  - unfold redeemToken.
    destruct (0 <? timestamp (tokens t)); cbn [negb commit]; [|now left].
    destruct (redeemed (tokens t)) eqn:Hr; cbn [commit]; [now left|].
    destruct (block_timestamp env <? timestamp (tokens t)); cbn [commit]; [now left|].
    destruct (block_timestamp env - timestamp (tokens t) <? 86400);
      cbn [negb commit]; [|now left].
    destruct (String.eqb_spec t tokenId) as [->|Hne].
    + right. rewrite RedeemFacts.store_same. cbn [Chain.redeemedOk succeeded].
      rewrite String.eqb_refl. auto.
    + left. apply store_other. congruence.
Qed.

(** Without a returned redemption of the token a transaction leaves it as it
    is. *)
Lemma apply_token_unredeemed (tokens : Storage) (tx : Chain.Tx) (tokenId : string) :
  Chain.redeemedOk tokenId (tx, Chain.exec tokens tx) = false ->
  0 < timestamp (tokens tokenId) ->
  Chain.apply tokens tx tokenId = tokens tokenId.
Proof.
  intros Hno Hts. destruct (apply_token tokens tx tokenId Hts) as [H|(_ & H & _)];
    [exact H | congruence].
Qed.

Lemma redeemedOk_minted (tokens : Storage) (tx : Chain.Tx) (tokenId : string) :
  Chain.redeemedOk tokenId (tx, Chain.exec tokens tx) = true ->
  0 < timestamp (tokens tokenId) /\ redeemed (tokens tokenId) = false /\
  Chain.apply tokens tx tokenId = setRedeemed (tokens tokenId).
Proof.
  destruct tx as [env t bk rdr|env t]; cbn [Chain.redeemedOk]; [discriminate|].
  intros H. apply andb_true_iff in H. destruct H as [Ht Hs].
  apply String.eqb_eq in Ht. subst t.
  unfold Chain.apply. cbn [Chain.exec] in *. unfold redeemToken in *.
  destruct (0 <? timestamp (tokens tokenId)) eqn:He; cbn [negb] in *; [|discriminate].
  destruct (redeemed (tokens tokenId)); [discriminate|].
  destruct (block_timestamp env <? timestamp (tokens tokenId)); [discriminate|].
  destruct (block_timestamp env - timestamp (tokens tokenId) <? 86400);
    cbn [negb] in *; [|discriminate].
  cbn [commit]. rewrite RedeemFacts.store_same. apply Z.ltb_lt in He. auto.
Qed.

Lemma history_redeemed (txs : list Chain.Tx) :
  forall (tokens : Storage) (tokenId : string),
    0 < timestamp (tokens tokenId) -> redeemed (tokens tokenId) = true ->
    filter (Chain.redeemedOk tokenId) (Chain.history tokens txs) = [].
Proof.
  induction txs as [|tx rest IH]; intros tokens tokenId Hts Hr; [reflexivity|].
  cbn [Chain.history filter].
  destruct (apply_token tokens tx tokenId Hts) as [H|(_ & _ & H)]; [|congruence].
  destruct (Chain.redeemedOk tokenId (tx, Chain.exec tokens tx)) eqn:Hok.
  - apply redeemedOk_minted in Hok. destruct Hok as (_ & Hf & _). congruence.
  - apply IH; now rewrite H.
Qed.

End ChainFacts.

(** X20: minting on an unused identifier in a block with a positive
    timestamp returns, stores the token with that timestamp, unredeemed, and
    changes no other token. Verified in any later block the token exists, is
    not redeemed, and is valid exactly while less than 86400 seconds have
    passed since the mint. *)
Theorem mint_then_verify :
  forall (env env' : BookingVerification.Env) (tokenId bookingId : string) (rider : Z)
         (tokens : BookingVerification.Storage),
    BookingVerification.timestamp (tokens tokenId) = 0 ->
    0 < BookingVerification.block_timestamp env ->
    BookingVerification.block_timestamp env <= BookingVerification.block_timestamp env' ->
    exists tokens',
      BookingVerification.mintToken env tokenId bookingId rider tokens =
        BookingVerification.Returns true tokens'
          [BookingVerification.TokenMinted tokenId bookingId rider] /\
      tokens' tokenId =
        BookingVerification.mkToken bookingId rider
          (BookingVerification.block_timestamp env) true false /\
      (forall other, other <> tokenId -> tokens' other = tokens other) /\
      BookingVerification.verifyToken env' tokenId tokens' =
        Some (true,
              BookingVerification.block_timestamp env' -
                BookingVerification.block_timestamp env <? 86400,
              false,
              BookingVerification.block_timestamp env).
Proof.
  intros env env' tokenId bookingId rider tokens Hunused Hpos Hlater.
  eexists. unfold BookingVerification.mintToken. rewrite Hunused. cbn [Z.eqb negb].
  split; [reflexivity|]. split; [apply RedeemFacts.store_same|].
  split; [intros other Hne; now apply ChainFacts.store_other|].
  unfold BookingVerification.verifyToken. rewrite RedeemFacts.store_same.
  cbn [BookingVerification.timestamp BookingVerification.redeemed negb].
  apply Z.ltb_lt in Hpos. rewrite Hpos. apply Z.ltb_ge in Hlater. rewrite Hlater.
  reflexivity.
Qed.

Lemma mint_then_verify_witness :
  exists tokens',
    BookingVerification.mintToken (BookingVerification.mkEnv 1699123456 7)
      "SEAT-abc12345-def67890" "abc12345" 7 BookingVerification.emptyStorage =
      BookingVerification.Returns true tokens'
        [BookingVerification.TokenMinted "SEAT-abc12345-def67890" "abc12345" 7] /\
    BookingVerification.verifyToken (BookingVerification.mkEnv (1699123456 + 86400) 9)
      "SEAT-abc12345-def67890" tokens' = Some (true, false, false, 1699123456).
Proof.
  destruct (mint_then_verify (BookingVerification.mkEnv 1699123456 7)
              (BookingVerification.mkEnv (1699123456 + 86400) 9)
              "SEAT-abc12345-def67890" "abc12345" 7 BookingVerification.emptyStorage)
    as (tokens' & Hm & _ & _ & Hv).
  - reflexivity.
  - simpl. lia.
  - simpl. lia.
  - exists tokens'. split; [exact Hm | exact Hv].
Defined.

(** X21: verification and redemption agree: in the same block a redemption
    returns exactly when verification reports the token as existing, valid
    and not redeemed, and redemption panics exactly when verification does. *)
Theorem verify_agrees_with_redeem :
  forall (env : BookingVerification.Env) (tokenId : string)
         (tokens : BookingVerification.Storage),
    (BookingVerification.succeeded (BookingVerification.redeemToken env tokenId tokens) = true
     <-> BookingVerification.verifyToken env tokenId tokens =
         Some (true, true, false, BookingVerification.timestamp (tokens tokenId))) /\
    (BookingVerification.redeemToken env tokenId tokens = BookingVerification.Panics <->
     BookingVerification.verifyToken env tokenId tokens = None).
Proof.
  intros env tokenId tokens.
  unfold BookingVerification.redeemToken, BookingVerification.verifyToken.
  destruct (0 <? BookingVerification.timestamp (tokens tokenId));
    destruct (BookingVerification.redeemed (tokens tokenId));
    destruct (BookingVerification.block_timestamp env <?
              BookingVerification.timestamp (tokens tokenId));
    destruct (BookingVerification.block_timestamp env -
              BookingVerification.timestamp (tokens tokenId) <? 86400);
    cbn; split; split; intros H; try reflexivity; try discriminate.
Qed.

(** X22: whatever transactions follow, a token minted with a positive
    timestamp keeps its booking identifier, rider, timestamp and verified
    flag, and once it is redeemed it stays redeemed. *)
Theorem minted_token_is_immutable :
  forall (txs : list Chain.Tx) (tokens : BookingVerification.Storage) (tokenId : string),
    0 < BookingVerification.timestamp (tokens tokenId) ->
    BookingVerification.bookingId (Chain.runTxs tokens txs tokenId) =
      BookingVerification.bookingId (tokens tokenId) /\
    BookingVerification.rider (Chain.runTxs tokens txs tokenId) =
      BookingVerification.rider (tokens tokenId) /\
    BookingVerification.timestamp (Chain.runTxs tokens txs tokenId) =
      BookingVerification.timestamp (tokens tokenId) /\
    BookingVerification.verified (Chain.runTxs tokens txs tokenId) =
      BookingVerification.verified (tokens tokenId) /\
    (BookingVerification.redeemed (tokens tokenId) = true ->
     BookingVerification.redeemed (Chain.runTxs tokens txs tokenId) = true).
Proof.
  unfold Chain.runTxs.
  induction txs as [|tx rest IH]; intros tokens tokenId Hts; cbn [fold_left].
  - repeat split; auto.
  - assert (Hstep :
      BookingVerification.bookingId (Chain.apply tokens tx tokenId) =
        BookingVerification.bookingId (tokens tokenId) /\
      BookingVerification.rider (Chain.apply tokens tx tokenId) =
        BookingVerification.rider (tokens tokenId) /\
      BookingVerification.timestamp (Chain.apply tokens tx tokenId) =
        BookingVerification.timestamp (tokens tokenId) /\
      BookingVerification.verified (Chain.apply tokens tx tokenId) =
        BookingVerification.verified (tokens tokenId) /\
      (BookingVerification.redeemed (tokens tokenId) = true ->
       BookingVerification.redeemed (Chain.apply tokens tx tokenId) = true)).
    { destruct (ChainFacts.apply_token tokens tx tokenId Hts) as [->|(-> & _ & _)];
        simpl; repeat split; auto. }
    destruct Hstep as (H1 & H2 & H3 & H4 & H5).
    assert (Hts' : 0 < BookingVerification.timestamp (Chain.apply tokens tx tokenId))
      by now rewrite H3.
    destruct (IH _ tokenId Hts') as (I1 & I2 & I3 & I4 & I5).
    rewrite I1, I2, I3, I4, H1, H2, H3, H4. repeat split; auto.
Qed.

Lemma minted_token_is_immutable_witness :
  BookingVerification.bookingId
    (Chain.runTxs sampleStorage
       [Chain.Mint (BookingVerification.mkEnv 1699130000 8)
          "SEAT-abc12345-def67890" "zzz" 8;
        Chain.Redeem (BookingVerification.mkEnv 1699130001 11) "SEAT-abc12345-def67890";
        Chain.Mint (BookingVerification.mkEnv 1699130002 8)
          "SEAT-abc12345-def67890" "zzz" 8]
       "SEAT-abc12345-def67890") = "abc12345".
Proof.
  apply (minted_token_is_immutable
           [Chain.Mint (BookingVerification.mkEnv 1699130000 8)
              "SEAT-abc12345-def67890" "zzz" 8;
            Chain.Redeem (BookingVerification.mkEnv 1699130001 11) "SEAT-abc12345-def67890";
            Chain.Mint (BookingVerification.mkEnv 1699130002 8)
              "SEAT-abc12345-def67890" "zzz" 8]
           sampleStorage "SEAT-abc12345-def67890").
  vm_compute. reflexivity.
Defined.

(** X23: in every series of mints and redemptions, from every storage, at
    most one redemption of a given token identifier returns. *)
Theorem token_redeemed_at_most_once :
  forall (txs : list Chain.Tx) (tokens : BookingVerification.Storage) (tokenId : string),
    (List.length (filter (Chain.redeemedOk tokenId) (Chain.history tokens txs)) <= 1)%nat.
Proof.
  induction txs as [|tx rest IH]; intros tokens tokenId; [simpl; lia|].
  cbn [Chain.history filter].
  destruct (Chain.redeemedOk tokenId (tx, Chain.exec tokens tx)) eqn:Hok.
  - apply ChainFacts.redeemedOk_minted in Hok. destruct Hok as (Hts & _ & Happ).
    rewrite ChainFacts.history_redeemed; [simpl; lia | |]; now rewrite Happ.
  - apply IH.
Qed.

(** X24: a token that is unredeemed and 86400 seconds old or older is never
    redeemed by transactions of later blocks: no redemption of it returns
    and it stays unredeemed. *)
Theorem expired_token_is_never_redeemed :
  forall (txs : list Chain.Tx) (tokens : BookingVerification.Storage) (tokenId : string),
    0 < BookingVerification.timestamp (tokens tokenId) ->
    BookingVerification.redeemed (tokens tokenId) = false ->
    (forall tx, In tx txs ->
       BookingVerification.timestamp (tokens tokenId) + 86400 <= Chain.txTime tx) ->
    filter (Chain.redeemedOk tokenId) (Chain.history tokens txs) = [] /\
    Chain.runTxs tokens txs tokenId = tokens tokenId.
Proof.
  unfold Chain.runTxs.
  induction txs as [|tx rest IH]; intros tokens tokenId Hts Hr Hlate; [split; reflexivity|].
  cbn [Chain.history filter fold_left].
  assert (Hno : Chain.redeemedOk tokenId (tx, Chain.exec tokens tx) = false).
  { destruct tx as [env t bk rdr|env t]; cbn [Chain.redeemedOk]; [reflexivity|].
    destruct (String.eqb_spec t tokenId) as [->|Hne]; [|reflexivity].
    cbn [andb Chain.exec]. unfold BookingVerification.redeemToken.
    specialize (Hlate _ (or_introl eq_refl)). cbn [Chain.txTime] in Hlate.
    assert (H1 : (0 <? BookingVerification.timestamp (tokens tokenId)) = true)
      by now apply Z.ltb_lt.
    assert (H2 : (BookingVerification.block_timestamp env <?
                  BookingVerification.timestamp (tokens tokenId)) = false)
      by (apply Z.ltb_ge; lia).
    assert (H3 : (BookingVerification.block_timestamp env -
                  BookingVerification.timestamp (tokens tokenId) <? 86400) = false)
      by (apply Z.ltb_ge; lia).
    now rewrite H1, Hr, H2, H3. }
  rewrite Hno.
  pose proof (ChainFacts.apply_token_unredeemed tokens tx tokenId Hno Hts) as Happ.
  destruct (IH (Chain.apply tokens tx) tokenId) as [I1 I2].
  - now rewrite Happ.
  - now rewrite Happ.
  - intros tx' Hin. rewrite Happ. apply Hlate. now right.
  - split; [exact I1 | now rewrite I2].
Qed.

Lemma expired_token_is_never_redeemed_witness :
  Chain.runTxs sampleStorage
    [Chain.Redeem (BookingVerification.mkEnv (1699123456 + 86400) 11)
       "SEAT-abc12345-def67890";
     Chain.Redeem (BookingVerification.mkEnv (1699123456 + 90000) 12)
       "SEAT-abc12345-def67890"]
    "SEAT-abc12345-def67890" = sampleStorage "SEAT-abc12345-def67890".
Proof.
  apply (expired_token_is_never_redeemed
           [Chain.Redeem (BookingVerification.mkEnv (1699123456 + 86400) 11)
              "SEAT-abc12345-def67890";
            Chain.Redeem (BookingVerification.mkEnv (1699123456 + 90000) 12)
              "SEAT-abc12345-def67890"]
           sampleStorage "SEAT-abc12345-def67890").
  - vm_compute. reflexivity.
  - reflexivity.
  - intros tx [<-|[<-|[]]]; vm_compute; discriminate.
Defined.

(** ** Driver dashboard and route creation form *)

Module DriverFacts.
Import DriverDashboard.

Lemma arrayIncludes_In (a : list string) (x : string) :
  RouteForm.arrayIncludes a x = true <-> In x a.
Proof.
  unfold RouteForm.arrayIncludes. rewrite existsb_exists. split.
  - intros (y & Hy & He). apply String.eqb_eq in He. now subst.
  - intros H. exists x. split; [exact H | apply String.eqb_refl].
Qed.

Lemma arrayIncludes_app (a b : list string) (x : string) :
  RouteForm.arrayIncludes (a ++ b) x =
  RouteForm.arrayIncludes a x || RouteForm.arrayIncludes b x.
Proof. apply existsb_app. Qed.

Lemma arrayIncludes_filter (a : list string) (x stop : string) :
  RouteForm.arrayIncludes (filter (fun s => negb (String.eqb s stop)) a) x =
  RouteForm.arrayIncludes a x && negb (String.eqb x stop).
Proof.
  unfold RouteForm.arrayIncludes. induction a as [|y a IH]; [reflexivity|].
  cbn [filter existsb].
  destruct (String.eqb_spec y stop) as [->|Hy]; cbn [negb existsb]; rewrite IH.
  - destruct (String.eqb_spec x stop) as [->|Hx]; cbn [negb].
    + now rewrite !andb_false_r.
    + now rewrite !andb_true_r.
  - destruct (String.eqb_spec x y) as [->|Hxy]; cbn [orb]; [|reflexivity].
    apply String.eqb_neq in Hy. now rewrite Hy.
Qed.

(** One toggle flips the membership of the stop and of no other. *)
Lemma toggle_includes (stops : list string) (stop x : string) :
  RouteForm.arrayIncludes (RouteForm.toggle stops stop) x =
  xorb (RouteForm.arrayIncludes stops x) (String.eqb x stop).
Proof.
  unfold RouteForm.toggle.
  destruct (RouteForm.arrayIncludes stops stop) eqn:Hs.
  - rewrite arrayIncludes_filter.
    destruct (String.eqb_spec x stop) as [->|Hx]; cbn [negb].
    + rewrite Hs. reflexivity.
    + now rewrite andb_true_r, xorb_false_r.
  - rewrite arrayIncludes_app. unfold RouteForm.arrayIncludes at 2. cbn [existsb].
    rewrite orb_false_r.
    destruct (String.eqb_spec x stop) as [->|Hx].
    + rewrite Hs. reflexivity.
    + now rewrite orb_false_r, xorb_false_r.
Qed.

Lemma toggle_NoDup (stops : list string) (stop : string) :
  NoDup stops -> NoDup (RouteForm.toggle stops stop).
Proof.
  intros Hnd. unfold RouteForm.toggle.
  destruct (RouteForm.arrayIncludes stops stop) eqn:Hs.
  - now apply NoDup_filter.
  - apply NoDup_app; [exact Hnd | repeat constructor; intros [] |].
    intros x Hx [<-|[]]. apply arrayIncludes_In in Hx. congruence.
Qed.

Lemma fold_toggle (clicks : list string) :
  forall (stops : list string) (x : string),
    NoDup stops ->
    NoDup (fold_left RouteForm.toggle clicks stops) /\
    RouteForm.arrayIncludes (fold_left RouteForm.toggle clicks stops) x =
    xorb (RouteForm.arrayIncludes stops x) (Nat.odd (count_occ string_dec clicks x)).
Proof.
  induction clicks as [|c clicks IH]; intros stops x Hnd; cbn [fold_left count_occ].
  - split; [exact Hnd | now rewrite xorb_false_r].
  - destruct (IH (RouteForm.toggle stops c) x (toggle_NoDup _ _ Hnd)) as [H1 H2].
    split; [exact H1|]. rewrite H2, toggle_includes.
    destruct (string_dec c x) as [->|Hne].
    + rewrite String.eqb_refl, Nat.odd_succ, <- Nat.negb_odd.
      destruct (RouteForm.arrayIncludes stops x), (Nat.odd _); reflexivity.
    + assert (Hx : String.eqb x c = false) by (apply String.eqb_neq; congruence).
      now rewrite Hx, xorb_false_r.
Qed.

Lemma sameButStatus_refl (r : Route) : sameButStatus r r.
Proof. repeat split. Qed.

Lemma update_ids (routeId newStatus : string) (routes : list Route) :
  map id (handleUpdateRouteStatus routeId newStatus routes) = map id routes.
Proof.
  unfold handleUpdateRouteStatus. rewrite map_map. apply map_ext.
  intros r. now destruct (String.eqb (id r) routeId).
Qed.

Lemma step_ids (routes : list Route) (e : Event) :
  map id (step routes e) = (map id routes ++ newIds e)%list.
Proof.
  destruct e as [formData now|position entry]; cbn [step newIds].
  - destruct (RouteForm.handleSubmit formData); [|now rewrite app_nil_r].
    unfold handleCreateRoute. now rewrite map_app.
  - rewrite app_nil_r. destruct (nth_error routes position) as [r|]; [|reflexivity].
    destruct (String.eqb (status r) "active"); [apply update_ids | reflexivity].
Qed.

Lemma step_fields (routes : list Route) (e : Event) (i : nat) (r : Route) :
  nth_error routes i = Some r ->
  exists r', nth_error (step routes e) i = Some r' /\ sameButStatus r r'.
Proof.
  intros Hi. destruct e as [formData now|position entry]; cbn [step].
  - destruct (RouteForm.handleSubmit formData);
      [|exists r; split; [exact Hi | apply sameButStatus_refl]].
    exists r. split; [|apply sameButStatus_refl].
    unfold handleCreateRoute. rewrite nth_error_app1; [exact Hi|].
    apply nth_error_Some. congruence.
  - destruct (nth_error routes position) as [rp|];
      [|exists r; split; [exact Hi | apply sameButStatus_refl]].
    destruct (String.eqb (status rp) "active");
      [|exists r; split; [exact Hi | apply sameButStatus_refl]].
    unfold handleUpdateRouteStatus. rewrite nth_error_map, Hi. cbn [option_map].
    eexists. split; [reflexivity|].
    destruct (String.eqb (id r) (id rp)); repeat split.
Qed.

Lemma step_final (routes : list Route) (e : Event) (i : nat) (r : Route) :
  NoDup (map id routes) ->
  nth_error routes i = Some r -> status r <> "active" ->
  nth_error (step routes e) i = Some r.
Proof.
  intros Hnd Hi Hst. destruct e as [formData now|position entry]; cbn [step].
  - destruct (RouteForm.handleSubmit formData); [|exact Hi].
    unfold handleCreateRoute. rewrite nth_error_app1; [exact Hi|].
    apply nth_error_Some. congruence.
  - destruct (nth_error routes position) as [rp|] eqn:Hp; [|exact Hi].
    destruct (String.eqb_spec (status rp) "active") as [Ha|_]; [|exact Hi].
    unfold handleUpdateRouteStatus. rewrite nth_error_map, Hi. cbn [option_map].
    destruct (String.eqb_spec (id r) (id rp)) as [E|_]; [|reflexivity].
    exfalso. apply Hst.
    assert (Hij : i = position).
    { rewrite NoDup_nth_error in Hnd. apply Hnd.
      - rewrite length_map. apply nth_error_Some. congruence.
      - rewrite !nth_error_map, Hi, Hp. cbn [option_map]. now rewrite E. }
    subst i. rewrite Hi in Hp. injection Hp as ->. exact Ha.
Qed.

End DriverFacts.

(** X25: however the driver ticks and unticks the bus stops of the route
    form, starting from none, the list of stops holds no stop twice, and a
    stop is in it, its box ticked, exactly when it has been toggled an odd
    number of times. *)
Theorem bus_stops_toggle_parity :
  forall (clicks : list string) (stop : string),
    NoDup (fold_left RouteForm.toggle clicks []) /\
    RouteForm.arrayIncludes (fold_left RouteForm.toggle clicks []) stop =
    Nat.odd (count_occ string_dec clicks stop).
Proof.
  intros clicks stop.
  destruct (DriverFacts.fold_toggle clicks [] stop (NoDup_nil _)) as [H1 H2].
  split; [exact H1 | exact H2].
Qed.

(** X26: no series of route submissions and menu actions changes anything
    but the status of a route that is on the driver's list: its position,
    identifier, origin, destination, stops, departure time, seats, price and
    booked count stay as they are. *)
Theorem driver_events_change_status_only :
  forall (events : list DriverDashboard.Event) (routes : list DriverDashboard.Route)
         (i : nat) (r : DriverDashboard.Route),
    nth_error routes i = Some r ->
    exists r',
      nth_error (DriverDashboard.run routes events) i = Some r' /\
      DriverDashboard.id r' = DriverDashboard.id r /\
      DriverDashboard.from r' = DriverDashboard.from r /\
      DriverDashboard.to r' = DriverDashboard.to r /\
      DriverDashboard.passingStops r' = DriverDashboard.passingStops r /\
      DriverDashboard.departureTime r' = DriverDashboard.departureTime r /\
      DriverDashboard.availableSeats r' = DriverDashboard.availableSeats r /\
      DriverDashboard.pricePerSeat r' = DriverDashboard.pricePerSeat r /\
      DriverDashboard.bookings r' = DriverDashboard.bookings r.
Proof.
  unfold DriverDashboard.run.
  induction events as [|e rest IH]; intros routes i r Hi; cbn [fold_left].
  - exists r. repeat split. exact Hi.
  - destruct (DriverFacts.step_fields routes e i r Hi) as (r1 & H1 & S1).
    destruct (IH _ i r1 H1) as (r' & H' & S').
    exists r'. split; [exact H'|].
    destruct S1 as (A1 & A2 & A3 & A4 & A5 & A6 & A7 & A8).
    destruct S' as (B1 & B2 & B3 & B4 & B5 & B6 & B7 & B8).
    repeat split; congruence.
Qed.

Lemma driver_events_change_status_only_witness :
  exists r',
    nth_error
      (DriverDashboard.run DriverDashboard.initialRoutes
         [DriverDashboard.Menu 0 DriverDashboard.CancelRoute;
          DriverDashboard.Submit
            (RouteForm.mkFormData "Yaba" "VI" ["CMS"] "08:45" (Some 2) (Some 1200))
            1700000000000]) 0 = Some r' /\
    DriverDashboard.availableSeats r' = Some 3.
Proof.
  destruct (driver_events_change_status_only
              [DriverDashboard.Menu 0 DriverDashboard.CancelRoute;
               DriverDashboard.Submit
                 (RouteForm.mkFormData "Yaba" "VI" ["CMS"] "08:45" (Some 2) (Some 1200))
                 1700000000000]
              DriverDashboard.initialRoutes 0
              (DriverDashboard.mkRoute "1" "Ogba" "VI" ["Berger"; "Ketu"] "6:30 AM"
                 (Some 3) (Some 1500) "active" 2))
    as (r' & H & _ & _ & _ & _ & _ & Hs & _).
  - reflexivity.
  - exists r'. split; [exact H | exact Hs].
Defined.

(** X27: when the identifiers on the driver's list and those given to the
    routes created later are all distinct, a route that is departed or
    cancelled, or in any state other than active, stays exactly as it is
    through every series of route submissions and menu actions. *)
Theorem inactive_route_is_final :
  forall (events : list DriverDashboard.Event) (routes : list DriverDashboard.Route)
         (i : nat) (r : DriverDashboard.Route),
    NoDup (map DriverDashboard.id routes ++ flat_map DriverDashboard.newIds events) ->
    nth_error routes i = Some r ->
    DriverDashboard.status r <> "active" ->
    nth_error (DriverDashboard.run routes events) i = Some r.
Proof.
  unfold DriverDashboard.run.
  induction events as [|e rest IH]; intros routes i r Hnd Hi Hst; cbn [fold_left];
    [exact Hi|].
  cbn [flat_map] in Hnd. rewrite app_assoc in Hnd.
  apply IH; [| |exact Hst].
  - now rewrite DriverFacts.step_ids.
  - apply DriverFacts.step_final; [|exact Hi|exact Hst].
    apply NoDup_app_remove_r in Hnd. now apply NoDup_app_remove_r in Hnd.
Qed.

Lemma inactive_route_is_final_witness :
  nth_error
    (DriverDashboard.run
       (DriverDashboard.handleUpdateRouteStatus "1" "departed" DriverDashboard.initialRoutes)
       [DriverDashboard.Menu 0 DriverDashboard.CancelRoute;
        DriverDashboard.Menu 1 DriverDashboard.CancelRoute]) 0 =
  Some (DriverDashboard.mkRoute "1" "Ogba" "VI" ["Berger"; "Ketu"] "6:30 AM"
          (Some 3) (Some 1500) "departed" 2).
Proof.
  apply (inactive_route_is_final
           [DriverDashboard.Menu 0 DriverDashboard.CancelRoute;
            DriverDashboard.Menu 1 DriverDashboard.CancelRoute]
           (DriverDashboard.handleUpdateRouteStatus "1" "departed"
              DriverDashboard.initialRoutes)
           0).
  - simpl. repeat constructor; simpl; intuition discriminate.
  - reflexivity.
  - discriminate.
Defined.

(** With a repeated identifier a menu action on an active card also changes
    the departed route that shares its identifier. *)
Example repeated_identifier_reopens_route :
  map DriverDashboard.status
    (DriverDashboard.run
       [ DriverDashboard.mkRoute "7" "Ogba" "VI" [] "06:30" (Some 3) (Some 1500) "departed" 2;
         DriverDashboard.mkRoute "7" "Yaba" "CMS" [] "07:00" (Some 2) (Some 1000) "active" 0 ]
       [DriverDashboard.Menu 1 DriverDashboard.CancelRoute])
  = ["cancelled"; "cancelled"].
Proof. reflexivity. Qed.

(** ** The hour of a departure time *)

Module HourFacts.

Lemma split_at_first (sep : ascii) (a b : string) :
  JS.includes a (String sep EmptyString) = false ->
  JS.split sep (a ++ String sep b) = a :: JS.split sep b.
Proof.
  induction a as [|c a IH]; intros H.
  - simpl. now rewrite Ascii.eqb_refl.
  - rewrite SearchMore.includes_char in H. apply orb_false_iff in H.
    destruct H as [Hc Ha]. cbn [append JS.split]. rewrite Hc, (IH Ha). reflexivity.
Qed.

Lemma hourOf_before_colon (a b : string) :
  JS.includes a ":" = false ->
  RiderDashboard.hourOf (a ++ ":" ++ b) = JS.parseInt a.
Proof.
  intros H. unfold RiderDashboard.hourOf, JS.parseIntAt.
  cbn [append]. now rewrite (split_at_first ":" a b H).
Qed.

End HourFacts.

(** X28: the search reads a departure time only up to its first colon: two
    routes with the same origin, destination and seats whose departure
    times agree before the first colon are both kept or both dropped by
    every query, whatever follows the colon (minutes, AM or PM). *)
Theorem search_ignores_text_after_colon :
  forall (p : SearchParams.t) (r r' : Route.t) (hour rest rest' : string),
    JS.includes hour ":" = false ->
    Route.departureTime r = hour ++ ":" ++ rest ->
    Route.departureTime r' = hour ++ ":" ++ rest' ->
    Route.from r = Route.from r' ->
    Route.to r = Route.to r' ->
    Route.availableSeats r = Route.availableSeats r' ->
    RiderDashboard.matches p r = RiderDashboard.matches p r'.
Proof.
  intros p r r' hour rest rest' Hh Hr Hr' Hf Ht Hs.
  unfold RiderDashboard.matches.
  rewrite Hr, Hr', Hf, Ht, Hs, !HourFacts.hourOf_before_colon by exact Hh.
  reflexivity.
Qed.

Lemma search_ignores_text_after_colon_witness :
  RiderDashboard.matches (SearchParams.mk "Ogba" "VI" "06:00-08:00")
    (Route.mk "1" "Chidi O." (49 # 10) "" "Silver Honda Civic" "Ogba" "VI"
       ["Berger"; "Ketu"] "6:30 AM" 3 1500 95 2) =
  RiderDashboard.matches (SearchParams.mk "Ogba" "VI" "06:00-08:00")
    (Route.mk "6" "Femi D." (44 # 10) "" "Green Toyota Yaris" "Ogba" "VI"
       [] "6:59 PM" 3 900 70 0).
Proof.
  apply (search_ignores_text_after_colon (SearchParams.mk "Ogba" "VI" "06:00-08:00")
           (Route.mk "1" "Chidi O." (49 # 10) "" "Silver Honda Civic" "Ogba" "VI"
              ["Berger"; "Ketu"] "6:30 AM" 3 1500 95 2)
           (Route.mk "6" "Femi D." (44 # 10) "" "Green Toyota Yaris" "Ogba" "VI"
              [] "6:59 PM" 3 900 70 0)
           "6" "30 AM" "59 PM"); reflexivity.
Defined.


(** ** Ranking and time window on the route table of the page *)

Module TableFacts.






End TableFacts.




(** ** Payment confirmation of the lifecycle *)



Example confirmPayment_exact_amount :
  Lifecycle.confirmPayment (fun b n => "SEAT-" ++ b ++ "-" ++ n)
    (fun b c r p t => b ++ c ++ r) [pendingBooking] "abc12345" 3000
    1699123500 "def67890" =
  (inr (Lifecycle.mkToken "SEAT-abc12345-def67890" "abc123451rider-7"
          1699123500 (1699123500 + 86400) false),
   [Lifecycle.issue
      (Lifecycle.mkToken "SEAT-abc12345-def67890" "abc123451rider-7"
         1699123500 (1699123500 + 86400) false)
      pendingBooking]).
Proof. reflexivity. Qed.
